(** * go-cli-init, package [logging]: verbosity parsing, log-file selection
    and the registry of module levels.

    The development follows [logging/logging.go].  Three parts of the
    package carry behaviour of their own and are embedded here:

    - [Verbosity.UnmarshalFlag] and [Verbosity.fromInt] (flag parsing);
    - [initLogFile] and [logFileName] (choice of the log file under
      advisory locks), over a model of the file-system calls they make;
    - [logLevelInfo] with [Register], [ModuleLevels] and [SetLevel], and the
      initialisation functions that bind a backend to it, over a heap of
      level tables.

    Library functions the package calls ([strings.ToLower], [strconv.Atoi],
    [os.OpenFile], [syscall.Flock], go-logging's [moduleLeveled], ...) are
    modelled after their documented behaviour, each next to its first use. *)

From Stdlib Require Import ZArith Ascii String DecimalString Lia.
From Stdlib Require DecimalPos.
From stdpp Require Import gmap strings list fin_maps.

Local Open Scope string_scope.

(** ** Levels and errors *)

(** go-logging's [Level]: [CRITICAL] is 0 and [DEBUG] is 5. *)
Inductive Level := CRITICAL | ERROR | WARNING | NOTICE | INFO | DEBUG.

Definition Level_to_Z (l : Level) : Z :=
  match l with
  | CRITICAL => 0 | ERROR => 1 | WARNING => 2
  | NOTICE => 3 | INFO => 4 | DEBUG => 5
  end%Z.

#[global] Instance Level_eq_dec : EqDecision Level.
Proof. solve_decision. Defined.

(** [type Verbosity logging.Level] *)
Definition Verbosity := Level.

Definition MaxVerbosity : Verbosity := DEBUG.
Definition MinVerbosity : Verbosity := ERROR.

(** [syscall.Errno] values the package can meet. *)
Inductive errno := EACCES | ENOENT | EBADF | EINVAL | ESPIPE | EWOULDBLOCK.

(** Go [error] values: those of [strconv], those of the operating system,
    and those built by [fmt.Errorf]. *)
Inductive error :=
| ErrSyntax
| ErrRange
| Errno (e : errno)
| Errorf (msg : string).

(** A Go result pair [(T, error)]: exactly one side is meaningful. *)
Inductive result (A : Type) :=
| Ok (a : A)
| Err (e : error).
Arguments Ok {A} a.
Arguments Err {A} e.

(** ** Strings *)

Module Strings.

Definition byte_of (c : ascii) : nat := nat_of_ascii c.

(** ['A' <= c && c <= 'Z'] *)
Definition isUpper (c : ascii) : bool :=
  (65 <=? byte_of c)%nat && (byte_of c <=? 90)%nat.

(** [c += 'a' - 'A'] on upper-case letters *)
Definition lowerByte (c : ascii) : ascii :=
  if isUpper c then ascii_of_nat (byte_of c + 32) else c.

(** [c < utf8.RuneSelf] for every byte *)
Fixpoint isASCII (s : string) : bool :=
  match s with
  | EmptyString => true
  | String c r => (byte_of c <? 128)%nat && isASCII r
  end.

Fixpoint mapBytes (f : ascii -> ascii) (s : string) : string :=
  match s with
  | EmptyString => EmptyString
  | String c r => String (f c) (mapBytes f r)
  end.

(** [strings.ToLower]: a string of ASCII bytes is lowered byte by byte;
    any other string goes through [unicode.ToLower] rune by rune, which is
    left to the parameter [unicodeLower]. *)
Definition ToLower (unicodeLower : string -> string) (s : string) : string :=
  if isASCII s then mapBytes lowerByte s else unicodeLower s.

(** [strings.Count(s, sep)] for a one-byte [sep]: the number of bytes of
    [s] equal to it. *)
Fixpoint Count (s : string) (sep : ascii) : nat :=
  match s with
  | EmptyString => 0
  | String c r => (if Ascii.eqb c sep then 1 else 0) + Count r sep
  end.

(** [strings.Repeat] of a one-byte string *)
Fixpoint Repeat (c : ascii) (n : nat) : string :=
  match n with
  | O => EmptyString
  | S k => String c (Repeat c k)
  end.

End Strings.

(** ** strconv *)

Module Strconv.

Local Open Scope Z_scope.

(** [int] is 64 bits wide. *)
Definition intSize : Z := 64.
Definition maxInt : Z := 2 ^ (intSize - 1) - 1.
Definition minInt : Z := - 2 ^ (intSize - 1).

Definition isDigit (c : ascii) : bool :=
  (48 <=? Strings.byte_of c)%nat && (Strings.byte_of c <=? 57)%nat.

Definition digitVal (c : ascii) : Z := Z.of_nat (Strings.byte_of c) - 48.

(** [n = n*10 + int(ch)] over the digits; [None] at a byte that is no
    digit. *)
Fixpoint digits (n : Z) (s : string) : option Z :=
  match s with
  | EmptyString => Some n
  | String c r => if isDigit c then digits (n * 10 + digitVal c) r else None
  end.

(** [strconv.Atoi]: an optional sign, then one or more decimal digits;
    a syntax error otherwise, a range error when the value does not fit
    [int]. *)
Definition Atoi (s : string) : result Z :=
  let neg :=
    match s with
    | String c _ => Ascii.eqb c "-"
    | EmptyString => false
    end in
  let body :=
    match s with
    | String c r => if Ascii.eqb c "-" || Ascii.eqb c "+" then r else s
    | EmptyString => s
    end in
  match body with
  | EmptyString => Err ErrSyntax
  | _ =>
      match digits 0 body with
      | None => Err ErrSyntax
      | Some n =>
          let v := if neg then - n else n in
          if (minInt <=? v) && (v <=? maxInt) then Ok v else Err ErrRange
      end
  end.

(** [strconv.Itoa] *)
Definition Itoa (i : Z) : string := NilZero.string_of_int (Z.to_int i).

(** The number a decimal numeral stands for, read after the digits that
    made [n]. *)
Fixpoint read (n : Z) (d : Decimal.uint) : Z :=
  match d with
  | Decimal.Nil => n
  | Decimal.D0 l => read (n * 10 + 0) l
  | Decimal.D1 l => read (n * 10 + 1) l
  | Decimal.D2 l => read (n * 10 + 2) l
  | Decimal.D3 l => read (n * 10 + 3) l
  | Decimal.D4 l => read (n * 10 + 4) l
  | Decimal.D5 l => read (n * 10 + 5) l
  | Decimal.D6 l => read (n * 10 + 6) l
  | Decimal.D7 l => read (n * 10 + 7) l
  | Decimal.D8 l => read (n * 10 + 8) l
  | Decimal.D9 l => read (n * 10 + 9) l
  end.

End Strconv.

(** ** Verbosity flags *)

Section VerbosityFlag.

(** The rune-wise lowering of strings that are not pure ASCII. *)
Variable unicodeLower : string -> string.

(** What a call leaves behind: the verbosity stored through the receiver,
    the format strings passed to [log.Warning], and the returned error. *)
Record parsed := Parsed {
  p_value : Verbosity;
  p_warnings : list string;
  p_err : option error
}.

Definition warnBelow : string :=
  "Invalid log level %d; minimum is 0. Displaying critical errors only.".
Definition warnAbove : string :=
  "Invalid log level %d; maximum is 4. Displaying all messages.".

Definition fromInt (v : Verbosity) (i : Z) : parsed :=
  if (i <? 0)%Z then Parsed CRITICAL [warnBelow] None
  else Parsed DEBUG [warnAbove] None.

(** One [case] line of the [switch]: is the scrutinee among the listed
    strings? *)
Definition case_of (key : string) (alts : list string) : bool :=
  existsb (String.eqb key) alts.

Definition UnmarshalFlag (v : Verbosity) (input : string) : parsed :=
  let input := Strings.ToLower unicodeLower input in
  let key := Strings.ToLower unicodeLower input in
  if case_of key ["critical"; "fatal"] then Parsed CRITICAL [] None
  else if case_of key ["0"; "error"] then Parsed ERROR [] None
  else if case_of key ["1"; "warning"; "warn"] then Parsed WARNING [] None
  else if case_of key ["2"; "notice"; "v"] then Parsed NOTICE [] None
  else if case_of key ["3"; "info"; "vv"] then Parsed INFO [] None
  else if case_of key ["4"; "debug"; "vvv"] then Parsed DEBUG [] None
  else
    match Strconv.Atoi input with
    | Ok i => fromInt v i
    | Err _ =>
        let c := Strings.Count input "v"%char in
        if (String.length input =? c)%nat then fromInt v (Z.of_nat c)
        else Parsed v [] (Some (Errorf ("Invalid log level " ++ input)))
    end.

End VerbosityFlag.

(** The verbosity strings of the configuration surface, in lower case, each
    with the level it selects: the named levels, the numbers 0 to 4 and the
    repeated flags. *)
Definition documented : list (string * Level) :=
  [ ("critical", CRITICAL); ("fatal", CRITICAL); ("error", ERROR);
    ("warning", WARNING); ("warn", WARNING); ("notice", NOTICE);
    ("info", INFO); ("debug", DEBUG);
    ("0", ERROR); ("1", WARNING); ("2", NOTICE); ("3", INFO); ("4", DEBUG);
    ("v", NOTICE); ("vv", INFO); ("vvv", DEBUG) ].

Definition is_documented (s : string) : bool :=
  existsb (String.eqb s) (map fst documented).

(** ** The operating system, as far as [initLogFile] sees it *)

Module OS.

Local Open Scope Z_scope.

(** A file descriptor of this process. *)
Definition fd := nat.

(** Who holds the exclusive advisory lock of a file: an open file
    description outside this process, or a descriptor of this process
    (every [os.OpenFile] makes an open file description of its own, so two
    descriptors of one process compete like two processes). *)
Inductive holder := Elsewhere | Here (f : fd).

#[global] Instance holder_eq_dec : EqDecision holder.
Proof. solve_decision. Defined.

Record file := File {
  f_data : list ascii;
  f_perm : Z;
  f_lock : option holder;
  (** [false] for FIFOs and the like, on which [ftruncate] and [lseek]
      fail *)
  f_regular : bool
}.

Record desc := Desc {
  d_path : string;
  d_flag : Z;
  d_offset : Z
}.

Inductive syscall :=
| SysMkdirAll (dir : string) (perm : Z)
| SysOpen (name : string) (flag perm : Z)
| SysFlock (f : fd) (how : Z)
| SysTruncate (f : fd) (size : Z)
| SysSeek (f : fd) (offset whence : Z)
| SysClose (f : fd).

Record World := mkWorld {
  files : gmap string file;
  (** directories made so far *)
  dirs : gset string;
  (** paths the system refuses to make or open (permissions, a file where
      a directory is needed, ...) *)
  denied : gset string;
  umask : Z;
  fdtab : gmap fd desc;
  (** the calls made, oldest first *)
  trace : list syscall
}.

Definition set_files (g : gmap string file) (w : World) : World :=
  mkWorld g (dirs w) (denied w) (umask w) (fdtab w) (trace w).
Definition set_dirs (d : gset string) (w : World) : World :=
  mkWorld (files w) d (denied w) (umask w) (fdtab w) (trace w).
Definition set_fdtab (t : gmap fd desc) (w : World) : World :=
  mkWorld (files w) (dirs w) (denied w) (umask w) t (trace w).
Definition log (c : syscall) (w : World) : World :=
  mkWorld (files w) (dirs w) (denied w) (umask w) (fdtab w) (trace w ++ [c]).

(** Flags of [os] and [syscall] on Linux. *)
Definition O_RDWR : Z := 2.
Definition O_CREATE : Z := 64.
Definition O_TRUNC : Z := 512.
Definition O_APPEND : Z := 1024.
Definition LOCK_EX : Z := 2.
Definition LOCK_NB : Z := 4.
(** [os.ModeDir = 1 << 31] *)
Definition ModeDir : Z := Z.shiftl 1 31.
(** The octal literals [0755] and [0664]. *)
Definition mode_0755 : Z := 7 * 64 + 5 * 8 + 5.
Definition mode_0664 : Z := 6 * 64 + 6 * 8 + 4.

Definition has_flag (flag bit : Z) : bool := negb (Z.land flag bit =? 0).

(** Calls run in a state monad over the world; their Go errors are
    ordinary results. *)
Definition M (A : Type) : Type := World -> A * World.
Definition ret {A} (a : A) : M A := fun w => (a, w).
Definition bind {A B} (m : M A) (k : A -> M B) : M B :=
  fun w => let '(a, w1) := m w in k a w1.

Declare Scope os_scope.
Delimit Scope os_scope with os.
Notation "x <- m ;; k" := (bind m (fun x => k))
  (at level 100, m at next level, right associativity) : os_scope.
Notation "m ;;; k" := (bind m (fun _ => k))
  (at level 100, right associativity) : os_scope.

(** [os.MkdirAll]: makes the directory (with its ancestors, which the model
    does not list one by one). *)
Definition MkdirAll (dir : string) (perm : Z) : M (option error) :=
  fun w =>
    let w := log (SysMkdirAll dir perm) w in
    if decide (dir ∈ denied w) then (Some (Errno EACCES), w)
    else (None, set_dirs ({[dir]} ∪ dirs w) w).

(** [os.OpenFile]: a new descriptor on [name], at offset 0.  The file is
    made, empty, when it is absent and [O_CREATE] is given; its permission
    bits are those asked for, less the umask. *)
Definition OpenFile (name : string) (flag perm : Z) : M (result fd) :=
  fun w =>
    let w := log (SysOpen name flag perm) w in
    if decide (name ∈ denied w) then (Err (Errno EACCES), w)
    else
      let f := fresh (dom (fdtab w)) in
      let d := Desc name flag 0 in
      match files w !! name with
      | Some old =>
          let w :=
            if has_flag flag O_TRUNC
            then set_files
                   (<[name := File [] (f_perm old) (f_lock old) (f_regular old)]>
                      (files w)) w
            else w in
          (Ok f, set_fdtab (<[f := d]> (fdtab w)) w)
      | None =>
          if has_flag flag O_CREATE then
            let new := File [] (Z.land perm (Z.lnot (umask w))) None true in
            (Ok f, set_fdtab (<[f := d]> (fdtab w))
                     (set_files (<[name := new]> (files w)) w))
          else (Err (Errno ENOENT), w)
      end.

(** [syscall.Flock] with [LOCK_EX|LOCK_NB]: takes the lock when nobody
    else holds it and fails at once otherwise. *)
Definition Flock (f : fd) (how : Z) : M (option error) :=
  fun w =>
    let w := log (SysFlock f how) w in
    match fdtab w !! f with
    | None => (Some (Errno EBADF), w)
    | Some d =>
        match files w !! d_path d with
        | None => (Some (Errno EBADF), w)
        | Some x =>
            if decide (f_lock x = None \/ f_lock x = Some (Here f)) then
              (None,
               set_files
                 (<[d_path d := File (f_data x) (f_perm x) (Some (Here f)) (f_regular x)]>
                    (files w)) w)
            else (Some (Errno EWOULDBLOCK), w)
        end
    end.

(** The first [n] bytes, padded with zero bytes when the file was
    shorter. *)
Definition resize (n : nat) (data : list ascii) : list ascii :=
  take n data ++ replicate (n - length data)%nat Ascii.zero.

(** [os.File.Truncate] *)
Definition Truncate (f : fd) (size : Z) : M (option error) :=
  fun w =>
    let w := log (SysTruncate f size) w in
    match fdtab w !! f with
    | None => (Some (Errno EBADF), w)
    | Some d =>
        match files w !! d_path d with
        | None => (Some (Errno EBADF), w)
        | Some x =>
            if negb (f_regular x) || (size <? 0) then (Some (Errno EINVAL), w)
            else
              (None,
               set_files
                 (<[d_path d :=
                      File (resize (Z.to_nat size) (f_data x)) (f_perm x) (f_lock x) (f_regular x)]>
                    (files w)) w)
        end
    end.

(** [os.File.Seek]: [whence] 0 counts from the start, 1 from the
    current offset, 2 from the end. *)
Definition Seek (f : fd) (offset whence : Z) : M (result Z) :=
  fun w =>
    let w := log (SysSeek f offset whence) w in
    match fdtab w !! f with
    | None => (Err (Errno EBADF), w)
    | Some d =>
        match files w !! d_path d with
        | None => (Err (Errno EBADF), w)
        | Some x =>
            if negb (f_regular x) then (Err (Errno ESPIPE), w)
            else
              let base :=
                if whence =? 0 then Some 0
                else if whence =? 1 then Some (d_offset d)
                else if whence =? 2 then Some (Z.of_nat (length (f_data x)))
                else None in
              match base with
              | None => (Err (Errno EINVAL), w)
              | Some b =>
                  if b + offset <? 0 then (Err (Errno EINVAL), w)
                  else
                    (Ok (b + offset),
                     set_fdtab (<[f := Desc (d_path d) (d_flag d) (b + offset)]> (fdtab w)) w)
              end
        end
    end.

(** [os.File.Close]: the descriptor goes, and with it the lock it
    held. *)
Definition Close (f : fd) : M (option error) :=
  fun w =>
    let w := log (SysClose f) w in
    match fdtab w !! f with
    | None => (Some (Errno EBADF), w)
    | Some d =>
        let w := set_fdtab (delete f (fdtab w)) w in
        match files w !! d_path d with
        | Some x =>
            if decide (f_lock x = Some (Here f)) then
              (None,
               set_files
                 (<[d_path d := File (f_data x) (f_perm x) None (f_regular x)]>
                    (files w)) w)
            else (None, w)
        | None => (None, w)
        end
    end.

End OS.

(** ** Choosing the log file *)

Section Selector.

Import OS.
Local Open Scope Z_scope.
Local Open Scope os_scope.

(** [path.Dir], which the package takes from the standard library. *)
Variable Dir : string -> string.

(** [fileAttempts] is the number of log files we attempt to open before
    giving up. *)
Definition fileAttempts : Z := 10.

Definition logFileName (base : string) (attempt : Z) : string :=
  if attempt =? 0 then base
  else (base ++ "." ++ Strconv.Itoa attempt)%string.

Definition exhausted : error :=
  Errorf ("Failed to acquire a log file after "
            ++ Strconv.Itoa fileAttempts ++ " attempts")%string.

(** The loop [for i := 0; i < fileAttempts; i++] of [initLogFile], with
    [left = fileAttempts - i] rounds to go; the last case is the statement
    after the loop. *)
Fixpoint tryFiles (filename : string) (left : nat) (i : Z) : M (result fd) :=
  match left with
  | O => ret (Err exhausted)
  | S left' =>
      r <- OpenFile (logFileName filename i) (Z.lor O_RDWR O_CREATE) mode_0664 ;;
      match r with
      | Err e => ret (Err e)
      | Ok f =>
          l <- Flock f (Z.lor LOCK_EX LOCK_NB) ;;
          match l with
          | Some _ => (Close f ;;; tryFiles filename left' (i + 1))
          | None =>
              t <- Truncate f 0 ;;
              match t with
              | Some e => (Close f ;;; ret (Err e))
              | None =>
                  s <- Seek f 0 0 ;;
                  match s with
                  | Err e => (Close f ;;; ret (Err e))
                  | Ok _ => ret (Ok f)
                  end
              end
          end
      end
  end.

Definition initLogFile (filename : string) (append : bool) : M (result fd) :=
  e <- MkdirAll (Dir filename) (Z.lor ModeDir mode_0755) ;;
  match e with
  | Some err => ret (Err err)
  | None =>
      if append then
        r <- OpenFile filename (Z.lor (Z.lor O_RDWR O_CREATE) O_APPEND) mode_0664 ;;
        match r with
        | Err err => ret (Err err)
        | Ok f => (Flock f (Z.lor LOCK_EX LOCK_NB) ;;; ret (Ok f))
        end
      else tryFiles filename (Z.to_nat fileAttempts) 0
  end.

End Selector.

(** ** go-logging's leveled backend *)

Module Logging.

(** The address of a [map[string]logging.Level] on the heap: the level
    table of a [moduleLeveled] backend, or a map handed to a caller. *)
Definition loc := positive.

(** [moduleLeveled.GetLevel]: the level of the module, else the level of
    the empty module, else [DEBUG]. *)
Definition GetLevel (levels : gmap string Level) (module : string) : Level :=
  match levels !! module with
  | Some l => l
  | None =>
      match levels !! "" with
      | Some l => l
      | None => DEBUG
      end
  end.

(** [moduleLeveled.SetLevel]: [l.levels[module] = level] *)
Definition SetLevel (level : Level) (module : string)
    (levels : gmap string Level) : gmap string Level :=
  <[module := level]> levels.

End Logging.

(** ** The registry of module levels and its initialisation *)

(** [logLevelInfo]; the mutex only matters between goroutines and is left
    out of this sequential model. *)
Record logLevelInfo := mkInfo {
  backend : option Logging.loc;
  modules : gset string
}.

Record Options := mkOptions {
  o_Verbosity : Verbosity;
  o_File : string;
  o_FileVerbosity : Verbosity;
  o_Append : bool;
  o_Colour : bool;
  o_NoColour : bool;
  o_Structured : bool
}.

(** The state of the process: the world outside, the heap of level tables,
    and the package variables [logInfo] and [logFile], with go-logging's
    [defaultBackend] (the backends records are sent to). *)
Record Process := mkProcess {
  world : OS.World;
  heap : gmap Logging.loc (gmap string Level);
  logInfo : logLevelInfo;
  logFile : option OS.fd;
  defaultBackend : list Logging.loc
}.

Definition set_world (w : OS.World) (p : Process) : Process :=
  mkProcess w (heap p) (logInfo p) (logFile p) (defaultBackend p).
Definition set_heap (h : gmap Logging.loc (gmap string Level)) (p : Process) : Process :=
  mkProcess (world p) h (logInfo p) (logFile p) (defaultBackend p).
Definition set_logInfo (i : logLevelInfo) (p : Process) : Process :=
  mkProcess (world p) (heap p) i (logFile p) (defaultBackend p).
Definition set_logFile (f : option OS.fd) (p : Process) : Process :=
  mkProcess (world p) (heap p) (logInfo p) f (defaultBackend p).
Definition set_defaultBackend (b : list Logging.loc) (p : Process) : Process :=
  mkProcess (world p) (heap p) (logInfo p) (logFile p) b.

(** [var logInfo = logLevelInfo{modules: map[string]struct{}{}}] *)
Definition logInfo_init : logLevelInfo := mkInfo None ∅.

(** A process right after the package variables are set up, in world [w].
    go-logging's own initial backend is none of the package's and is not
    listed. *)
Definition start (w : OS.World) : Process :=
  mkProcess w ∅ logInfo_init None [].

(** How a call without an error result ends: it returns, or it panics
    (here always on a nil backend). *)
Inductive outcome (A : Type) :=
| Returns (a : A)
| Panics.
Arguments Returns {A} a.
Arguments Panics {A}.

(** [new(map)]: a fresh address holding [m]. *)
Definition alloc (m : gmap string Level) (p : Process) : Logging.loc * Process :=
  let l := fresh (dom (heap p)) in
  (l, set_heap (<[l := m]> (heap p)) p).

(** The level table behind the registry's backend, if there is one.  An
    address outside the heap does not occur in a Go program (what is
    referenced stays allocated); the model treats it like nil. *)
Definition table (p : Process) : option (gmap string Level) :=
  match backend (logInfo p) with
  | None => None
  | Some b => heap p !! b
  end.

Definition Register (name : string) (p : Process) : Process :=
  set_logInfo
    (mkInfo (backend (logInfo p)) ({[name]} ∪ modules (logInfo p))) p.

(** The body of the [range] loop in [ModuleLevels]. *)
Definition record_level (t : gmap string Level) (module : string)
    (levels : gmap string Level) : gmap string Level :=
  <[module := Logging.GetLevel t module]> levels.

(** What [ModuleLevels] writes into its map: the entry for the empty
    module, then one entry per registered module. *)
Definition snapshot (t : gmap string Level) (mods : gset string) : gmap string Level :=
  set_fold (record_level t) (record_level t "" ∅) mods.

(** [ModuleLevels] returns the address of the map it has made. *)
Definition ModuleLevels (p : Process) : outcome Logging.loc * Process :=
  let '(levels, p) := alloc ∅ p in
  match table p with
  | None => (Panics, p)
  | Some t =>
      (Returns levels,
       set_heap (<[levels := snapshot t (modules (logInfo p))]> (heap p)) p)
  end.

Definition SetLevel (level : Level) (module : string) (p : Process)
    : outcome unit * Process :=
  match backend (logInfo p) with
  | None => (Panics, p)
  | Some b =>
      match heap p !! b with
      | None => (Panics, p)
      | Some t =>
          (Returns tt, set_heap (<[b := Logging.SetLevel level module t]> (heap p)) p)
      end
  end.

(** [MustGetLoggerNamed], as far as the registry goes. *)
Definition MustGetLoggerNamed (name : string) (p : Process) : Process :=
  Register name p.

(** [initLogging]: a new leveled backend whose level for the empty module
    is the verbosity asked for.  Where it writes and how it formats is
    go-logging's business. *)
Definition initLogging (verbosity : Verbosity) (p : Process) : Logging.loc * Process :=
  alloc (Logging.SetLevel verbosity "" ∅) p.

Definition initialiseLogging (verbosity : Verbosity) (p : Process) : Process :=
  let '(b, p) := initLogging verbosity p in
  let p := set_defaultBackend [b] p in
  set_logInfo (mkInfo (Some b) (modules (logInfo p))) p.

Definition InitLogging (verbosity : Verbosity) (p : Process) : Process :=
  initialiseLogging verbosity p.

Section Init.

Variable Dir : string -> string.

(** The [LogLevelInfo] returned is always [&logInfo]; what is left to
    return is the error. *)
Definition InitLoggingOptions (opts : Options) (p : Process)
    : option error * Process :=
  let p := initialiseLogging (o_Verbosity opts) p in
  if String.eqb (o_File opts) "" then (None, p)
  else
    let '(r, w) := initLogFile Dir (o_File opts) (o_Append opts) (world p) in
    let p := set_world w p in
    match r with
    | Err e => (Some e, p)
    | Ok f =>
        let p := set_logFile (Some f) p in
        let first := default [] (option_map (fun b => [b]) (backend (logInfo p))) in
        let '(b, p) := initLogging (o_FileVerbosity opts) p in
        (None, set_defaultBackend (first ++ [b]) p)
    end.

Definition InitStructuredLogging (stderrVerbosity fileVerbosity : Verbosity)
    (filename : string) (structured : bool) (p : Process) : option error * Process :=
  InitLoggingOptions
    (mkOptions stderrVerbosity filename fileVerbosity false false false structured) p.

Definition InitFileLogging (stderrVerbosity fileVerbosity : Verbosity)
    (filename : string) (p : Process) : option error * Process :=
  InitStructuredLogging stderrVerbosity fileVerbosity filename false p.

End Init.

(** ** Words for the statements about [initLogFile] *)

Module Words.

Import OS.
Local Open Scope Z_scope.

(** Another process holds the lock of the file at [p]. *)
Definition held_elsewhere (w : World) (p : string) : bool :=
  match files w !! p with
  | Some x => bool_decide (f_lock x = Some Elsewhere)
  | None => false
  end.

(** Nothing stands in the way of taking [p]: it is absent, or it is a
    regular file nobody has locked. *)
Definition available (w : World) (p : string) : bool :=
  match files w !! p with
  | Some x => bool_decide (f_lock x = None) && f_regular x
  | None => true
  end.

Definition allowed (w : World) (p : string) : bool :=
  bool_decide (p ∉ denied w).

(** The calls of one round of the loop that finds its file locked. *)
Definition failed_attempt (name : string) (f : fd) : list syscall :=
  [ SysOpen name (Z.lor O_RDWR O_CREATE) mode_0664;
    SysFlock f (Z.lor LOCK_EX LOCK_NB);
    SysClose f ].

Fixpoint failed_attempts (filename : string) (f : fd) (i : Z) (n : nat)
    : list syscall :=
  match n with
  | O => []
  | S k =>
      failed_attempt (logFileName filename i) f
        ++ failed_attempts filename f (i + 1) k
  end.

(** All candidates of the loop, [filename] and [filename.1] to
    [filename.9], can be opened and are held by other processes. *)
Definition candidates_held (w : World) (filename : string) : bool :=
  forallb
    (fun i => allowed w (logFileName filename i)
              && held_elsewhere w (logFileName filename i))
    (seqZ 0 fileAttempts).

(** The names passed to [os.OpenFile], in order. *)
Definition opened (calls : list syscall) : list string :=
  flat_map (fun c => match c with SysOpen name _ _ => [name] | _ => [] end) calls.

(** The access bits a mode grants to users other than the owner and the
    group. *)
Definition others_bits (perm : Z) : Z := Z.land perm 7.

(** A call that is either no [OpenFile] or an [OpenFile] with mode [perm],
    and that is not [MkdirAll]. *)
Definition after_mkdir (perm : Z) (c : syscall) : Prop :=
  match c with
  | SysMkdirAll _ _ => False
  | SysOpen _ _ p => p = perm
  | _ => True
  end.

End Words.

(** ** Worlds to run the code in *)

Module Demo.

Import OS.

(** The directory part of a path without further cleaning; enough for the
    paths used below. *)
Fixpoint upto_slash (s : string) : string * bool :=
  match s with
  | EmptyString => (EmptyString, false)
  | String c r =>
      let '(d, found) := upto_slash r in
      if found then (String c d, true)
      else if Ascii.eqb c "/" then (EmptyString, true)
      else (EmptyString, false)
  end.

Definition Dir (s : string) : string :=
  let '(d, found) := upto_slash s in
  if found then d else ".".

Definition held (data : string) : file :=
  File (list_ascii_of_string data) mode_0664 (Some Elsewhere) true.
Definition free (data : string) : file :=
  File (list_ascii_of_string data) mode_0664 None true.

Definition world_of (fs : list (string * file)) : World :=
  mkWorld (list_to_map fs) ∅ ∅ 18 ∅ [].

(** [out/app.log] is held by another process, [out/app.log.1] is left over
    from an earlier run. *)
Definition one_held : World :=
  world_of [("out/app.log", held "live"); ("out/app.log.1", free "stale")].

(** All ten candidates are held. *)
Definition all_held : World :=
  world_of
    (map (fun i => (logFileName "out/app.log" (Z.of_nat i), held "live")) (seq 0 10)).

(** A process that has initialised logging and registered one module. *)
Definition bound_one : Process :=
  Register "net" (InitLogging WARNING (start (world_of []))).

End Demo.

(** ** The rest of the package *)

(** [CloseFileLogging].  The model has descriptors where Go has [os.File]
    values, so it stands for the first close of the file only. *)
Definition CloseFileLogging (p : Process) : option error * Process :=
  match logFile p with
  | None => (None, p)
  | Some f =>
      let '(e, w) := OS.Close f (world p) in
      (e, set_world w p)
  end.

(** What [logFormatter] returns: the JSON formatter, or go-logging's string
    formatter for a format. *)
Inductive Formatter :=
| jsonFormatter
| StringFormatter (format : string).

(** [shouldColour]; [isTerminal] is the answer of [terminal.IsTerminal] for
    the file. *)
Definition shouldColour (isTerminal coloured colourless : bool) : bool :=
  if coloured then true
  else if colourless then false
  else isTerminal.

Definition plainFormat : string := "%{time:15:04:05.000} %{level:7s}: %{message}".

Definition logFormatter (isTerminal structured coloured colourless : bool) : Formatter :=
  if structured then jsonFormatter
  else
    let formatStr := plainFormat in
    let formatStr :=
      if shouldColour isTerminal coloured colourless
      then "%{color}" ++ formatStr ++ "%{color:reset}"
      else formatStr in
    StringFormatter formatStr.

(** The formatters [InitLoggingOptions] hands to [initLogging]: for standard
    error with the flags of the options, for the file with
    [coloured = false] and [colourless = true]. *)
Definition stderrFormatter (opts : Options) (isTerminal : bool) : Formatter :=
  logFormatter isTerminal (o_Structured opts) (o_Colour opts) (o_NoColour opts).
Definition fileFormatter (opts : Options) (isTerminal : bool) : Formatter :=
  logFormatter isTerminal (o_Structured opts) false true.

(** [jsonLevelNames], indexed by the level in [jsonFormatter.Format]. *)
Definition jsonLevelNames : list string :=
  ["critical"; "error"; "warning"; "notice"; "info"; "debug"].

Definition jsonLevelName (l : Level) : option string :=
  jsonLevelNames !! Z.to_nat (Level_to_Z l).

(** [strings.TrimPrefix] *)
Definition TrimPrefix (s prefix : string) : string :=
  if String.prefix prefix s
  then String.substring (String.length prefix)
         (String.length s - String.length prefix) s
  else s.

(** [strings.Replace(s, old, new, -1)] for one-byte [old] and [new]. *)
Fixpoint ReplaceAll (s : string) (old new : ascii) : string :=
  match s with
  | EmptyString => EmptyString
  | String c r =>
      String (if Ascii.eqb c old then new else c) (ReplaceAll r old new)
  end.

(** [getLoggerName]; [caller] is the file reported by [runtime.Caller], or
    [None] when it reports nothing. *)
Definition getLoggerName (Dir : string -> string) (caller : option string) : string :=
  match caller with
  | None => "<unknown>"
  | Some file => ReplaceAll (TrimPrefix (Dir file) ".go") "/" "."
  end.

(** [MustGetLogger], as far as the registry goes. *)
Definition MustGetLogger (Dir : string -> string) (caller : option string)
    (p : Process) : Process :=
  MustGetLoggerNamed (getLoggerName Dir caller) p.

(** ** More words for statements about the file system *)

Module Owned.

Import OS.

(** A lock held by this process belongs to one of its open descriptors. *)
Definition lock_owned (t : gmap fd desc) (x : file) : bool :=
  match f_lock x with
  | Some (Here g) => bool_decide (g ∈ dom t)
  | _ => true
  end.

Definition locks_owned (w : World) : bool :=
  bool_decide (map_Forall (fun _ x => lock_owned (fdtab w) x = true) (files w)).

(** The file at [p] is there, unlocked, and not a regular file. *)
Definition special (w : World) (p : string) : bool :=
  match files w !! p with
  | Some x => bool_decide (f_lock x = None) && negb (f_regular x)
  | None => false
  end.

(** The candidates [i], ..., [i + n - 1] can be opened and are held by
    other processes. *)
Definition held_from (w : World) (filename : string) (i : Z) (n : nat) : bool :=
  forallb
    (fun j => Words.allowed w (logFileName filename j)
              && Words.held_elsewhere w (logFileName filename j))
    (seqZ i (Z.of_nat n)).

(** The flags of the two calls of [os.OpenFile]. *)
Definition freshFlags : Z := Z.lor O_RDWR O_CREATE.
Definition appendFlags : Z := Z.lor (Z.lor O_RDWR O_CREATE) O_APPEND.

(** What append mode leaves of the files when directory and file can be
    opened: the file is made if it was not there, and locked by the new
    descriptor [f] if nobody else holds it. *)
Definition appended (w : World) (filename : string) (f : fd) : gmap string file :=
  match files w !! filename with
  | None =>
      <[filename := File [] (Z.land mode_0664 (Z.lnot (umask w))) (Some (Here f)) true]>
        (files w)
  | Some x =>
      if decide (f_lock x = None \/ f_lock x = Some (Here f))
      then <[filename := File (f_data x) (f_perm x) (Some (Here f)) (f_regular x)]> (files w)
      else files w
  end.

End Owned.

(** ** More worlds to run the code in *)

Module Cases.

Import OS.

(** The base file and [out/app.log.1] are held by other processes;
    [out/app.log.2] is not there. *)
Definition two_held : World :=
  Demo.world_of [("out/app.log", Demo.held "live"); ("out/app.log.1", Demo.held "live")].

(** The base file is held, and [out/app.log.1] cannot be opened. *)
Definition second_denied : World :=
  mkWorld {[ "out/app.log" := Demo.held "live" ]} ∅ {[ "out/app.log.1" ]} 18 ∅ [].

(** The base path is a FIFO. *)
Definition fifo_base : World :=
  Demo.world_of [("out/app.log", File [] mode_0664 None false)].

(** Console at warning, file [out/app.log] at debug, fresh-file mode. *)
Definition to_file : Options :=
  mkOptions WARNING "out/app.log" DEBUG false false false false.

(** A process bound to a backend in which [net] has a level of its own, and
    which tracks [net] and [db]. *)
Definition two_modules : Process :=
  snd (SetLevel ERROR "net"
         (Register "db" (Register "net" (InitLogging WARNING (start (Demo.world_of [])))))).

End Cases.

(** * Properties *)

(** ** Verbosity flags *)

Module StringFacts.

Import Strings Strconv.

Lemma digit_is_lower (c : ascii) :
  isDigit c = true -> (byte_of c <? 128)%nat = true /\ lowerByte c = c.
Proof.
  destruct c as [[] [] [] [] [] [] [] []]; vm_compute; intros H;
    first [discriminate H | split; reflexivity].
Qed.

Lemma digits_are_lower (s : string) :
  forall n m, digits n s = Some m ->
    isASCII s = true /\ mapBytes lowerByte s = s.
Proof.
  induction s as [|c r IH]; intros n m H; simpl in *.
  - split; reflexivity.
  - destruct (isDigit c) eqn:Hd; [|discriminate].
    destruct (digit_is_lower c Hd) as [Ha Hl].
    destruct (IH _ _ H) as [Hr Hm].
    rewrite Ha, Hr, Hl, Hm. split; reflexivity.
Qed.

(** What [Atoi] accepts has no upper-case letter and no byte beyond
    ASCII. *)
Lemma Atoi_is_lower (s : string) (i : Z) :
  Atoi s = Ok i -> isASCII s = true /\ mapBytes lowerByte s = s.
Proof.
  unfold Atoi. destruct s as [|c r]; [discriminate|].
  destruct (Ascii.eqb_spec c "-") as [->|Hm]; simpl orb; cbv iota.
  - destruct r as [|c' r']; [discriminate|].
    destruct (digits 0 (String c' r')) as [n|] eqn:Hd; [|discriminate].
    intros _. destruct (digits_are_lower _ _ _ Hd) as [Ha Hl].
    change (isASCII (String "-" (String c' r'))) with (isASCII (String c' r')).
    change (mapBytes lowerByte (String "-" (String c' r')))
      with (String "-"%char (mapBytes lowerByte (String c' r'))).
    rewrite Ha, Hl. split; reflexivity.
  - destruct (Ascii.eqb_spec c "+") as [->|Hp]; cbv iota.
    + destruct r as [|c' r']; [discriminate|].
      destruct (digits 0 (String c' r')) as [n|] eqn:Hd; [|discriminate].
      intros _. destruct (digits_are_lower _ _ _ Hd) as [Ha Hl].
      change (isASCII (String "+" (String c' r'))) with (isASCII (String c' r')).
      change (mapBytes lowerByte (String "+" (String c' r')))
        with (String "+"%char (mapBytes lowerByte (String c' r'))).
      rewrite Ha, Hl. split; reflexivity.
    + destruct (digits 0 (String c r)) as [n|] eqn:Hd; [|discriminate].
      intros _. exact (digits_are_lower _ _ _ Hd).
Qed.

Lemma digit_not_sign (c : ascii) :
  isDigit c = true -> Ascii.eqb c "-" = false /\ Ascii.eqb c "+" = false.
Proof.
  destruct c as [[] [] [] [] [] [] [] []]; vm_compute; intros H;
    first [discriminate H | split; reflexivity].
Qed.

Lemma digits_string_of_uint (d : Decimal.uint) :
  forall n, digits n (NilEmpty.string_of_uint d) = Some (read n d).
Proof.
  induction d as [|d IH|d IH|d IH|d IH|d IH|d IH|d IH|d IH|d IH|d IH];
    intros n; [reflexivity|..]; cbn [NilEmpty.string_of_uint digits read];
    match goal with
    | |- (if isDigit ?c then _ else _) = _ =>
        change (isDigit c) with true; cbv iota
    end;
    rewrite IH; reflexivity.
Qed.

Lemma read_of_uint_acc (d : Decimal.uint) :
  forall acc, read (Zpos acc) d = Zpos (Pos.of_uint_acc d acc).
Proof.
  induction d as [|d IH|d IH|d IH|d IH|d IH|d IH|d IH|d IH|d IH|d IH];
    intros acc; [reflexivity|..]; cbn [read Pos.of_uint_acc];
    rewrite <- IH; f_equal; lia.
Qed.

Lemma read_of_uint (d : Decimal.uint) : read 0 d = Z.of_N (Pos.of_uint d).
Proof.
  induction d as [|d IH|d IH|d IH|d IH|d IH|d IH|d IH|d IH|d IH|d IH];
    [reflexivity | exact IH | ..];
    cbn [read Pos.of_uint Z.of_N]; rewrite <- read_of_uint_acc; reflexivity.
Qed.

(** The numeral of a positive number reads back as that number; it is not
    empty and starts with a digit. *)
Lemma digits_to_uint (p : positive) :
  exists c r,
    NilZero.string_of_uint (Pos.to_uint p) = String c r
    /\ isDigit c = true
    /\ digits 0 (String c r) = Some (Zpos p).
Proof.
  assert (Hval : digits 0 (NilEmpty.string_of_uint (Pos.to_uint p)) = Some (Zpos p)).
  { rewrite digits_string_of_uint, read_of_uint, DecimalPos.Unsigned.of_to.
    reflexivity. }
  unfold NilZero.string_of_uint.
  destruct (Pos.to_uint p); [discriminate Hval|..];
    eexists _, _; (split; [reflexivity|]); (split; [reflexivity|]); exact Hval.
Qed.

(** [Atoi] reads back what [Itoa] writes, for every number that fits
    [int]. *)
Lemma Atoi_Itoa (z : Z) :
  (minInt <= z <= maxInt)%Z -> Atoi (Itoa z) = Ok z.
Proof.
  intros Hz.
  assert (Hrange : (minInt <=? z)%Z && (z <=? maxInt)%Z = true).
  { apply andb_true_intro. split; apply Z.leb_le; lia. }
  destruct z as [|p|p].
  - reflexivity.
  - unfold Itoa. cbn [Z.to_int NilZero.string_of_int].
    destruct (digits_to_uint p) as (c & r & -> & Hc & Hd).
    destruct (digit_not_sign c Hc) as [Hm Hp].
    unfold Atoi. rewrite Hm, Hp. cbn [orb]. rewrite Hd, Hrange. reflexivity.
  - unfold Itoa. cbn [Z.to_int NilZero.string_of_int].
    destruct (digits_to_uint p) as (c & r & -> & Hc & Hd).
    unfold Atoi. change (Ascii.eqb "-" "-") with true. cbn [orb].
    rewrite Hd. change (- Z.pos p)%Z with (Z.neg p). rewrite Hrange. reflexivity.
Qed.

Lemma ToLower_Atoi um (s : string) (i : Z) :
  Atoi s = Ok i -> ToLower um s = s.
Proof.
  intros H. destruct (Atoi_is_lower s i H) as [Ha Hl].
  unfold ToLower. rewrite Ha. exact Hl.
Qed.

Lemma Repeat_v_lower um (n : nat) : ToLower um (Repeat "v" n) = Repeat "v" n.
Proof.
  unfold ToLower.
  assert (H : isASCII (Repeat "v" n) = true
              /\ mapBytes lowerByte (Repeat "v" n) = Repeat "v" n).
  { induction n as [|k [IH1 IH2]]; [split; reflexivity|].
    simpl Repeat. split.
    - change (isASCII (String "v" (Repeat "v" k))) with (isASCII (Repeat "v" k)).
      exact IH1.
    - change (mapBytes lowerByte (String "v" (Repeat "v" k)))
        with (String "v"%char (mapBytes lowerByte (Repeat "v" k))).
      rewrite IH2. reflexivity. }
  destruct H as [-> ->]. reflexivity.
Qed.

Lemma Count_Repeat (n : nat) : Count (Repeat "v" n) "v" = n.
Proof.
  induction n as [|k IH]; [reflexivity|].
  simpl Repeat. simpl Count. rewrite IH. reflexivity.
Qed.

Lemma length_Repeat c (n : nat) : String.length (Repeat c n) = n.
Proof. induction n as [|k IH]; simpl; [reflexivity | now rewrite IH]. Qed.

End StringFacts.

Section VerbosityFacts.

Import Strings Strconv StringFacts.

Variable unicodeLower : string -> string.
Variable v : Verbosity.

Local Abbreviation lower := (ToLower unicodeLower).
Local Abbreviation parse := (UnmarshalFlag unicodeLower v).

(** The result is a function of the lowered input. *)
Lemma UnmarshalFlag_lowered (s t : string) :
  lower s = lower t -> parse s = parse t.
Proof. intros H. unfold UnmarshalFlag. rewrite H. reflexivity. Qed.

Lemma UnmarshalFlag_table (s : string) (lvl : Level) :
  In (lower s, lvl) documented -> parse s = Parsed lvl [] None.
Proof.
  intros H. unfold UnmarshalFlag.
  unfold documented in H. cbn [In] in H.
  repeat (destruct H as [H|H];
          [injection H as Hs <-; rewrite <- Hs; reflexivity|]).
  destruct H.
Qed.

(** No [case] of the [switch] takes a string that [Atoi] reads as a number
    outside 0..4. *)
Lemma switch_skips_numbers (s : string) (i : Z) (alts : list string) :
  Atoi s = Ok i -> (i < 0 \/ 4 < i)%Z ->
  Forall (fun a => forall j, Atoi a = Ok j -> (0 <= j <= 4)%Z) alts ->
  case_of s alts = false.
Proof.
  intros Hs Hi Hall. unfold case_of.
  induction Hall as [|a alts Ha _ IH]; [reflexivity|].
  simpl. rewrite IH, orb_false_r.
  destruct (String.eqb_spec s a) as [->|]; [|reflexivity].
  specialize (Ha _ Hs). lia.
Qed.

Ltac numbers_in_range :=
  repeat match goal with
         | |- Forall _ (_ :: _) =>
             constructor;
             [ let j := fresh "j" in
               let Hj := fresh "Hj" in
               intros j Hj; vm_compute in Hj;
               first [discriminate Hj | injection Hj as <-; lia] | ]
         end;
  constructor.

Lemma UnmarshalFlag_number (s : string) (i : Z) :
  Atoi (lower s) = Ok i -> (i < 0 \/ 4 < i)%Z -> parse s = fromInt v i.
Proof.
  intros Hs Hi. unfold UnmarshalFlag.
  rewrite (ToLower_Atoi unicodeLower _ _ Hs).
  rewrite !(switch_skips_numbers _ i _ Hs Hi) by numbers_in_range.
  rewrite Hs. reflexivity.
Qed.

Lemma UnmarshalFlag_many_v (n : nat) :
  (4 <= n)%nat -> parse (Repeat "v" n) = Parsed DEBUG [warnAbove] None.
Proof.
  intros Hn. unfold UnmarshalFlag.
  rewrite !Repeat_v_lower, Count_Repeat, length_Repeat, Nat.eqb_refl.
  do 4 (destruct n as [|n]; [lia|]).
  cbn -[fromInt Z.of_nat]. unfold fromInt.
  destruct (Z.ltb_spec (Z.of_nat (S (S (S (S n))))) 0) as [Hlt|_]; [lia|reflexivity].
Qed.

Lemma many_v_undocumented (n : nat) :
  (4 <= n)%nat -> is_documented (Repeat "v" n) = false.
Proof.
  intros Hn. do 4 (destruct n as [|n]; [lia|]). reflexivity.
Qed.

(** C5, as the code has it.  Every documented verbosity string, in any
    mix of upper and lower case, parses without error to its level, and
    inputs that differ only in case parse alike.  A decimal integer that
    [strconv.Atoi] accepts (an optional sign and digits, within the range
    of [int]) gives critical when it is below 0 and debug when it is
    above 4, with a nil error. *)
Theorem UnmarshalFlag_total_on_documented_and_clamping :
  (forall s lvl, In (lower s, lvl) documented -> parse s = Parsed lvl [] None)
  /\ (forall s t, lower s = lower t -> parse s = parse t)
  /\ (forall s i, Atoi (lower s) = Ok i ->
        ((i < 0)%Z -> parse s = Parsed CRITICAL [warnBelow] None)
        /\ ((4 < i)%Z -> parse s = Parsed DEBUG [warnAbove] None))
  /\ (forall z, (minInt <= z <= maxInt)%Z ->
        ((z < 0)%Z -> parse (Itoa z) = Parsed CRITICAL [warnBelow] None)
        /\ ((4 < z)%Z -> parse (Itoa z) = Parsed DEBUG [warnAbove] None)).
Proof.
  assert (Hnum : forall s i, Atoi (lower s) = Ok i ->
            ((i < 0)%Z -> parse s = Parsed CRITICAL [warnBelow] None)
            /\ ((4 < i)%Z -> parse s = Parsed DEBUG [warnAbove] None)).
  { intros s i Hs. split; intros Hi.
    - rewrite (UnmarshalFlag_number s i Hs) by lia.
      unfold fromInt. destruct (Z.ltb_spec i 0); [reflexivity|lia].
    - rewrite (UnmarshalFlag_number s i Hs) by lia.
      unfold fromInt. destruct (Z.ltb_spec i 0); [lia|reflexivity]. }
  split; [exact UnmarshalFlag_table|].
  split; [exact UnmarshalFlag_lowered|].
  split; [exact Hnum|].
  intros z Hz. apply Hnum.
  rewrite (ToLower_Atoi unicodeLower _ z (Atoi_Itoa z Hz)).
  exact (Atoi_Itoa z Hz).
Qed.

(** C10.  Inputs outside the documented set also parse, to debug: the
    empty string, ["00"], ["+2"], four or more [v]s; [fromInt] sends every
    integer from 0 upwards to debug. *)
Theorem UnmarshalFlag_fallback_is_debug :
  (is_documented "" = false /\ parse "" = Parsed DEBUG [warnAbove] None)
  /\ (is_documented "00" = false /\ parse "00" = Parsed DEBUG [warnAbove] None)
  /\ (is_documented "+2" = false /\ parse "+2" = Parsed DEBUG [warnAbove] None)
  /\ (forall n, (4 <= n)%nat ->
        is_documented (Repeat "v" n) = false
        /\ parse (Repeat "v" n) = Parsed DEBUG [warnAbove] None)
  /\ (forall i, (0 <= i)%Z -> fromInt v i = Parsed DEBUG [warnAbove] None).
Proof.
  do 3 (split; [split; reflexivity|]).
  split.
  - intros n Hn. split.
    + now apply many_v_undocumented.
    + now apply UnmarshalFlag_many_v.
  - intros i Hi. unfold fromInt.
    destruct (Z.ltb_spec i 0); [lia|reflexivity].
Qed.

End VerbosityFacts.

Lemma UnmarshalFlag_total_on_documented_and_clamping_witness :
  UnmarshalFlag id ERROR "DeBuG" = Parsed DEBUG [] None
  /\ UnmarshalFlag id ERROR "WARN" = UnmarshalFlag id ERROR "warn"
  /\ UnmarshalFlag id ERROR "-7" = Parsed CRITICAL [warnBelow] None
  /\ UnmarshalFlag id ERROR "12" = Parsed DEBUG [warnAbove] None
  /\ UnmarshalFlag id ERROR (Strconv.Itoa (-4096)) = Parsed CRITICAL [warnBelow] None.
Proof.
  destruct (UnmarshalFlag_total_on_documented_and_clamping id ERROR)
    as (Htable & Hcase & Hnum & Hint).
  split; [apply Htable; vm_compute; tauto|].
  split; [apply Hcase; reflexivity|].
  split; [apply (Hnum "-7" (-7)%Z); reflexivity|].
  split; [apply (Hnum "12" 12%Z); reflexivity|].
  apply (Hint (-4096)%Z); [vm_compute; split; discriminate | reflexivity].
Defined.

Lemma UnmarshalFlag_fallback_is_debug_witness :
  UnmarshalFlag id ERROR "vvvvv" = Parsed DEBUG [warnAbove] None
  /\ fromInt ERROR 2 = Parsed DEBUG [warnAbove] None.
Proof.
  destruct (UnmarshalFlag_fallback_is_debug id ERROR) as (_ & _ & _ & Hv & Hi).
  split.
  - apply (Hv 5%nat). lia.
  - apply (Hi 2%Z). lia.
Defined.

(** C5 as stated fails: a decimal integer beyond the range of [int] is
    neither clamped nor accepted. *)
Lemma UnmarshalFlag_rejects_huge_integers :
  Strconv.Itoa 99999999999999999999 = "99999999999999999999"
  /\ (4 < 99999999999999999999)%Z
  /\ UnmarshalFlag id WARNING "99999999999999999999"
     = Parsed WARNING [] (Some (Errorf "Invalid log level 99999999999999999999"))
  /\ Strconv.Itoa (-99999999999999999999) = "-99999999999999999999"
  /\ (-99999999999999999999 < 0)%Z
  /\ UnmarshalFlag id WARNING "-99999999999999999999"
     = Parsed WARNING [] (Some (Errorf "Invalid log level -99999999999999999999")).
Proof. repeat split; vm_compute; reflexivity. Qed.

(** ** The system calls *)

Module OSFacts.

Import OS.
Local Open Scope list_scope.

Lemma World_eta (w : World) :
  mkWorld (files w) (dirs w) (denied w) (umask w) (fdtab w) (trace w) = w.
Proof. destruct w; reflexivity. Qed.

Lemma MkdirAll_trace dir perm w :
  trace (snd (MkdirAll dir perm w)) = trace w ++ [SysMkdirAll dir perm].
Proof. unfold MkdirAll. simpl. case_decide; reflexivity. Qed.

Lemma OpenFile_trace name flag perm w :
  trace (snd (OpenFile name flag perm w)) = trace w ++ [SysOpen name flag perm].
Proof.
  unfold OpenFile. simpl. repeat case_match; reflexivity.
Qed.

Lemma Flock_trace f how w :
  trace (snd (Flock f how w)) = trace w ++ [SysFlock f how].
Proof. unfold Flock. simpl. repeat case_match; reflexivity. Qed.

Lemma Truncate_trace f size w :
  trace (snd (Truncate f size w)) = trace w ++ [SysTruncate f size].
Proof. unfold Truncate. simpl. repeat case_match; reflexivity. Qed.

Lemma Seek_trace f off whence w :
  trace (snd (Seek f off whence w)) = trace w ++ [SysSeek f off whence].
Proof. unfold Seek. simpl. repeat case_match; reflexivity. Qed.

Lemma Close_trace f w :
  trace (snd (Close f w)) = trace w ++ [SysClose f].
Proof. unfold Close. simpl. repeat case_match; reflexivity. Qed.

Lemma OpenFile_dirs name flag perm w :
  dirs (snd (OpenFile name flag perm w)) = dirs w.
Proof. unfold OpenFile. simpl. repeat case_match; reflexivity. Qed.

Lemma Flock_dirs f how w : dirs (snd (Flock f how w)) = dirs w.
Proof. unfold Flock. simpl. repeat case_match; reflexivity. Qed.

Lemma Truncate_dirs f size w : dirs (snd (Truncate f size w)) = dirs w.
Proof. unfold Truncate. simpl. repeat case_match; reflexivity. Qed.

Lemma Seek_dirs f off whence w : dirs (snd (Seek f off whence w)) = dirs w.
Proof. unfold Seek. simpl. repeat case_match; reflexivity. Qed.

Lemma Close_dirs f w : dirs (snd (Close f w)) = dirs w.
Proof. unfold Close. simpl. repeat case_match; reflexivity. Qed.

Lemma MkdirAll_files dir perm w :
  files (snd (MkdirAll dir perm w)) = files w.
Proof. unfold MkdirAll. simpl. case_decide; reflexivity. Qed.

Lemma Flock_fdtab f how w : fdtab (snd (Flock f how w)) = fdtab w.
Proof. unfold Flock. simpl. repeat case_match; reflexivity. Qed.

(** A successful [OpenFile] leaves a descriptor on the name, at offset 0,
    and without [O_TRUNC] a file that was there is left as it was. *)
Lemma OpenFile_Ok name flag perm w f w' :
  OpenFile name flag perm w = (Ok f, w') ->
  fdtab w' !! f = Some (Desc name flag 0)
  /\ (is_Some (files w !! name) -> has_flag flag O_TRUNC = false ->
      files w' = files w).
Proof.
  unfold OpenFile. simpl. intros H.
  repeat case_match; try discriminate H; injection H as <- <-; simpl;
    (split; [apply lookup_insert_eq|]); intros [x Hx] Ht;
    congruence.
Qed.

(** [Flock] on a file that another process holds fails and changes
    nothing. *)
Lemma Flock_held f how w d x :
  fdtab w !! f = Some d -> files w !! d_path d = Some x ->
  f_lock x = Some Elsewhere ->
  Flock f how w = (Some (Errno EWOULDBLOCK), log (SysFlock f how) w).
Proof.
  unfold Flock. simpl. intros -> -> Hl.
  rewrite decide_False by (rewrite Hl; intros [H|H]; discriminate H).
  reflexivity.
Qed.

End OSFacts.

(** ** Choosing the log file *)

Section SelectorFacts.

Import OS Words OSFacts.
Local Open Scope list_scope.

Variable Dir : string -> string.

(** Run one call: name its result and the world it leaves, and record what
    it added to the trace. *)
Ltac run call lemma r w' T :=
  let E := fresh "E" in
  pose proof lemma as T;
  destruct call as [r w'] eqn:E;
  cbn [snd] in T.

Lemma tryFiles_calls (filename : string) :
  forall left i w,
    exists rest,
      trace (snd (tryFiles filename left i w)) = trace w ++ rest
      /\ Forall (after_mkdir mode_0664) rest.
Proof.
  induction left as [|left IH]; intros i w; cbn [tryFiles].
  - exists []. rewrite app_nil_r. split; [reflexivity | constructor].
  - unfold bind, ret.
    run (OpenFile (logFileName filename i) (Z.lor O_RDWR O_CREATE) mode_0664 w)
        (OpenFile_trace (logFileName filename i) (Z.lor O_RDWR O_CREATE) mode_0664 w)
        r w1 T1.
    destruct r as [f|e]; cbn [snd].
    2:{ eexists. split; [exact T1|]. repeat constructor. }
    run (Flock f (Z.lor LOCK_EX LOCK_NB) w1)
        (Flock_trace f (Z.lor LOCK_EX LOCK_NB) w1) l w2 T2.
    destruct l as [e|].
    { run (Close f w2) (Close_trace f w2) c w3 T3.
      destruct (IH (i + 1)%Z w3) as (rest & Hrest & Hall).
      eexists. split.
      - rewrite Hrest, T3, T2, T1, <- !app_assoc. reflexivity.
      - repeat constructor. exact Hall. }
    run (Truncate f 0 w2) (Truncate_trace f 0 w2) t w3 T3.
    destruct t as [e|].
    { run (Close f w3) (Close_trace f w3) c w4 T4.
      eexists. split.
      - cbn [snd]. rewrite T4, T3, T2, T1, <- !app_assoc. reflexivity.
      - repeat constructor. }
    run (Seek f 0 0 w3) (Seek_trace f 0 0 w3) s w4 T4.
    destruct s as [o|e].
    { eexists. split.
      - cbn [snd]. rewrite T4, T3, T2, T1, <- !app_assoc. reflexivity.
      - repeat constructor. }
    run (Close f w4) (Close_trace f w4) c w5 T5.
    eexists. split.
    + cbn [snd]. rewrite T5, T4, T3, T2, T1, <- !app_assoc. reflexivity.
    + repeat constructor.
Qed.

Lemma tryFiles_dirs (filename : string) :
  forall left i w, dirs (snd (tryFiles filename left i w)) = dirs w.
Proof.
  induction left as [|left IH]; intros i w; cbn [tryFiles]; [reflexivity|].
  unfold bind, ret.
  run (OpenFile (logFileName filename i) (Z.lor O_RDWR O_CREATE) mode_0664 w)
      (OpenFile_dirs (logFileName filename i) (Z.lor O_RDWR O_CREATE) mode_0664 w)
      r w1 D1.
  destruct r as [f|e]; [|exact D1].
  run (Flock f (Z.lor LOCK_EX LOCK_NB) w1)
      (Flock_dirs f (Z.lor LOCK_EX LOCK_NB) w1) l w2 D2.
  destruct l as [e|].
  { run (Close f w2) (Close_dirs f w2) c w3 D3.
    rewrite IH. congruence. }
  run (Truncate f 0 w2) (Truncate_dirs f 0 w2) t w3 D3.
  destruct t as [e|].
  { run (Close f w3) (Close_dirs f w3) c w4 D4. cbn [snd]. congruence. }
  run (Seek f 0 0 w3) (Seek_dirs f 0 0 w3) s w4 D4.
  destruct s as [o|e]; cbn [snd]; [congruence|].
  run (Close f w4) (Close_dirs f w4) c w5 D5. cbn [snd]. congruence.
Qed.

Lemma no_trunc_flag : has_flag (Z.lor O_RDWR O_CREATE) O_TRUNC = false.
Proof. reflexivity. Qed.

Lemma create_flag : has_flag (Z.lor O_RDWR O_CREATE) O_CREATE = true.
Proof. reflexivity. Qed.

(** Project out of worlds, files and descriptors built with their
    constructors, leaving the maps alone. *)
Ltac project :=
  lazy beta iota zeta delta
    [files dirs denied umask fdtab trace log set_files set_dirs set_fdtab
     fst snd d_path d_flag d_offset f_data f_lock f_perm f_regular
     negb orb andb].

Ltac crunch :=
  repeat first
    [ rewrite lookup_insert_eq
    | progress project
    | progress change (0 + 0)%Z with 0%Z
    | progress change (0 <? 0)%Z with false
    | progress change (0 =? 0)%Z with true
    | progress change (Z.to_nat 0) with 0%nat
    | progress change (resize 0 ?d) with (@nil ascii) ].

(** A round on a file that another process holds: open, fail to lock,
    close, and go on with the next name.  Nothing but the trace changes. *)
Lemma round_held (filename : string) (left : nat) (i : Z) (w : World) :
  allowed w (logFileName filename i) = true ->
  held_elsewhere w (logFileName filename i) = true ->
  tryFiles filename (S left) i w
  = tryFiles filename left (i + 1)
      (mkWorld (files w) (dirs w) (denied w) (umask w) (fdtab w)
         (trace w ++ failed_attempt (logFileName filename i) (fresh (dom (fdtab w))))).
Proof.
  cbn [tryFiles]. generalize (logFileName filename i). intros p.
  destruct w as [fs ds dn um ft tr].
  unfold allowed, held_elsewhere. project. intros Ha Hh.
  apply bool_decide_eq_true_1 in Ha.
  destruct (fs !! p) as [x|] eqn:Hx; [|discriminate].
  apply bool_decide_eq_true_1 in Hh.
  unfold bind, OpenFile, Flock, Close. project.
  rewrite decide_False by exact Ha. rewrite Hx, no_trunc_flag. project.
  rewrite lookup_insert_eq. project. rewrite Hx.
  rewrite decide_False by (rewrite Hh; intros [H|H]; discriminate H).
  project. rewrite lookup_insert_eq. project. rewrite Hx.
  rewrite decide_False by (rewrite Hh; discriminate).
  rewrite delete_insert_id by (apply not_elem_of_dom_1, is_fresh).
  project. unfold failed_attempt. rewrite <- !app_assoc. reflexivity.
Qed.

(** A round on a file that is there for the taking: the file is opened
    (made if need be), locked, emptied and rewound. *)
Lemma round_free (filename : string) (left : nat) (i : Z) (w : World) :
  allowed w (logFileName filename i) = true ->
  available w (logFileName filename i) = true ->
  exists perm,
    tryFiles filename (S left) i w
    = (Ok (fresh (dom (fdtab w))),
       mkWorld
         (<[logFileName filename i := File [] perm (Some (Here (fresh (dom (fdtab w))))) true]>
            (files w))
         (dirs w) (denied w) (umask w)
         (<[fresh (dom (fdtab w)) := Desc (logFileName filename i) (Z.lor O_RDWR O_CREATE) 0]>
            (fdtab w))
         (trace w ++ [ SysOpen (logFileName filename i) (Z.lor O_RDWR O_CREATE) mode_0664;
                       SysFlock (fresh (dom (fdtab w))) (Z.lor LOCK_EX LOCK_NB);
                       SysTruncate (fresh (dom (fdtab w))) 0;
                       SysSeek (fresh (dom (fdtab w))) 0 0 ])).
Proof.
  cbn [tryFiles]. generalize (logFileName filename i). intros p.
  destruct w as [fs ds dn um ft tr].
  unfold allowed, available. project. intros Ha Hv.
  apply bool_decide_eq_true_1 in Ha.
  unfold bind, ret, OpenFile, Flock, Truncate, Seek. project.
  rewrite decide_False by exact Ha.
  destruct (fs !! p) as [x|] eqn:Hx.
  - apply andb_prop in Hv as [Hl Hr]. apply bool_decide_eq_true_1 in Hl.
    exists (f_perm x). rewrite no_trunc_flag. crunch. rewrite Hx.
    rewrite decide_True by (left; exact Hl).
    crunch. rewrite Hr. crunch.
    rewrite !insert_insert_eq, <- !app_assoc. reflexivity.
  - eexists. rewrite create_flag. crunch.
    rewrite decide_True by (left; reflexivity).
    crunch.
    rewrite !insert_insert_eq, <- !app_assoc. reflexivity.
Qed.

Lemma MkdirAll_allowed (dir : string) (perm : Z) (w : World) :
  allowed w dir = true ->
  MkdirAll dir perm w
  = (None,
     mkWorld (files w) ({[dir]} ∪ dirs w) (denied w) (umask w) (fdtab w)
       (trace w ++ [SysMkdirAll dir perm])).
Proof.
  unfold allowed, MkdirAll. intros Ha. apply bool_decide_eq_true_1 in Ha.
  destruct w as [fs ds dn um ft tr]. project.
  rewrite decide_False by exact Ha. reflexivity.
Qed.

(** Rounds on files that are all held: the loop runs out. *)
Lemma rounds_held (filename : string) :
  forall left i w,
    (forall j, (i <= j < i + Z.of_nat left)%Z ->
       allowed w (logFileName filename j) = true
       /\ held_elsewhere w (logFileName filename j) = true) ->
    tryFiles filename left i w
    = (Err exhausted,
       mkWorld (files w) (dirs w) (denied w) (umask w) (fdtab w)
         (trace w ++ failed_attempts filename (fresh (dom (fdtab w))) i left)).
Proof.
  induction left as [|left IH]; intros i w H.
  - cbn [tryFiles failed_attempts]. unfold ret.
    rewrite app_nil_r, World_eta. reflexivity.
  - destruct (H i ltac:(lia)) as [Ha Hh].
    rewrite (round_held filename left i w Ha Hh).
    rewrite IH.
    + project. cbn [failed_attempts]. rewrite <- app_assoc. reflexivity.
    + intros j Hj. exact (H j ltac:(lia)).
Qed.

Lemma append_cancel (a b c : string) : (a ++ b = a ++ c)%string -> b = c.
Proof.
  induction a as [|x a IH]; cbn; intros H; [exact H|].
  injection H as H. exact (IH H).
Qed.

Lemma append_grows (a b : string) : (a ++ b = a)%string -> b = "".
Proof.
  induction a as [|x a IH]; cbn; intros H; [exact H|].
  injection H as H. exact (IH H).
Qed.

Lemma logFileName_1 (filename : string) :
  logFileName filename 1 = (filename ++ ".1")%string.
Proof. reflexivity. Qed.

Lemma logFileName_1_fresh (filename : string) :
  logFileName filename 1 <> filename.
Proof.
  rewrite logFileName_1. intros H. apply append_grows in H. discriminate H.
Qed.

(** The name an eleventh round would use is none of the ten names. *)
Lemma eleventh_not_a_candidate (filename : string) :
  ~ In (logFileName filename 10) (map (logFileName filename) (seqZ 0 10)).
Proof.
  change (seqZ 0 10) with [0; 1; 2; 3; 4; 5; 6; 7; 8; 9]%Z.
  cbn [map In]. intros H.
  repeat (destruct H as [H|H];
          [ first [ symmetry in H; apply append_grows in H; discriminate H
                  | apply append_cancel in H; discriminate H ] | ]).
  exact H.
Qed.

(** C1.  In fresh-file mode, when another process holds the lock of the
    base path and [path.1] is there for the taking, [initLogFile] returns
    a descriptor on [path.1], not on [path]: the file behind it is empty
    and locked by that descriptor, the offset is 0, and the last two calls
    before the return are the truncation to 0 and the seek to the start.
    The file at [path] is left as it was. *)
Theorem initLogFile_skips_held_base (filename : string) (w : World) :
  allowed w (Dir filename) = true ->
  allowed w filename = true ->
  held_elsewhere w filename = true ->
  allowed w (filename ++ ".1")%string = true ->
  available w (filename ++ ".1")%string = true ->
  exists f w',
    initLogFile Dir filename false w = (Ok f, w')
    /\ fdtab w' !! f = Some (Desc (filename ++ ".1") (Z.lor O_RDWR O_CREATE) 0)
    /\ (filename ++ ".1")%string <> filename
    /\ (exists perm,
          files w' !! (filename ++ ".1")%string
          = Some (File [] perm (Some (Here f)) true))
    /\ files w' !! filename = files w !! filename
    /\ (exists before,
          trace w' = trace w ++ before ++ [SysTruncate f 0; SysSeek f 0 0]
          /\ opened before = [filename; (filename ++ ".1")%string]).
Proof.
  intros Hd Ha Hh Ha1 Hv1.
  unfold initLogFile, bind.
  rewrite (MkdirAll_allowed _ _ w Hd).
  change (Z.to_nat fileAttempts) with 10%nat.
  rewrite round_held by (change (logFileName filename 0) with filename; assumption).
  change (logFileName filename 0) with filename.
  project.
  match goal with
  | |- context [tryFiles filename 9 (0 + 1) ?w1] =>
      destruct (round_free filename 8 (0 + 1) w1) as [perm ->];
        [ exact Ha1 | exact Hv1 | ]
  end.
  project. change (logFileName filename (0 + 1)) with (filename ++ ".1")%string.
  assert (Hne : (filename ++ ".1")%string <> filename)
    by exact (logFileName_1_fresh filename).
  eexists _, _. split; [reflexivity|]. project.
  split; [apply lookup_insert_eq|].
  split; [exact Hne|].
  split; [exists perm; apply lookup_insert_eq|].
  split; [apply lookup_insert_ne; exact Hne|].
  eexists (SysMkdirAll _ _ :: failed_attempt filename _ ++ [_; _]).
  split.
  - unfold failed_attempt. cbn [app]. rewrite <- !app_assoc. reflexivity.
  - reflexivity.
Qed.

(** C2.  In fresh-file mode, when all ten candidates are held by other
    processes, [initLogFile] returns the error that names the ten attempts.
    The names it has opened are exactly the ten candidates, in order; the
    name an eleventh round would use is not among them, and no file is
    made or changed. *)
Theorem initLogFile_gives_up_after_ten (filename : string) (w : World) :
  allowed w (Dir filename) = true ->
  candidates_held w filename = true ->
  exists w' calls,
    initLogFile Dir filename false w
    = (Err (Errorf "Failed to acquire a log file after 10 attempts"), w')
    /\ trace w' = trace w ++ SysMkdirAll (Dir filename) (Z.lor ModeDir mode_0755) :: calls
    /\ opened calls = map (logFileName filename) (seqZ 0 10)
    /\ length (opened calls) = 10%nat
    /\ ~ In (logFileName filename 10) (opened calls)
    /\ files w' = files w
    /\ fdtab w' = fdtab w.
Proof.
  intros Hd Hall.
  unfold candidates_held in Hall. rewrite forallb_forall in Hall.
  unfold initLogFile, bind.
  rewrite (MkdirAll_allowed _ _ w Hd).
  rewrite rounds_held.
  - cbn [fdtab]. change (Z.to_nat fileAttempts) with 10%nat.
    eexists _, (failed_attempts filename (fresh (dom (fdtab w))) 0 10).
    split; [reflexivity|]. cbn [files fdtab trace].
    split; [rewrite <- app_assoc; reflexivity|].
    assert (Hopened :
      opened (failed_attempts filename (fresh (dom (fdtab w))) 0 10)
      = map (logFileName filename) (seqZ 0 10)) by reflexivity.
    rewrite Hopened.
    split; [reflexivity|].
    split; [reflexivity|].
    split; [exact (eleventh_not_a_candidate filename)|].
    split; reflexivity.
  - intros j Hj. apply andb_prop.
    apply (Hall j). apply list_elem_of_In, elem_of_seqZ.
    change (Z.of_nat (Z.to_nat fileAttempts)) with fileAttempts in Hj. lia.
Qed.

(** C3.  In append mode, once the directory is made and the open of the
    path succeeds, [initLogFile] returns the very descriptor the open gave,
    on that path and with [O_APPEND], whatever [Flock] answers.  In
    particular, when another process holds the lock, [Flock] fails with
    [EWOULDBLOCK], no file is changed, and the descriptor is returned all
    the same. *)
Theorem initLogFile_append_ignores_lock (filename : string) (w w1 w2 : World) (f : fd) :
  MkdirAll (Dir filename) (Z.lor ModeDir mode_0755) w = (None, w1) ->
  OpenFile filename (Z.lor (Z.lor O_RDWR O_CREATE) O_APPEND) mode_0664 w1 = (Ok f, w2) ->
  exists locked w',
    Flock f (Z.lor LOCK_EX LOCK_NB) w2 = (locked, w')
    /\ initLogFile Dir filename true w = (Ok f, w')
    /\ fdtab w' !! f = Some (Desc filename (Z.lor (Z.lor O_RDWR O_CREATE) O_APPEND) 0)
    /\ has_flag (Z.lor (Z.lor O_RDWR O_CREATE) O_APPEND) O_APPEND = true
    /\ (held_elsewhere w filename = true ->
        locked = Some (Errno EWOULDBLOCK) /\ files w' = files w).
Proof.
  intros Hmk Hopen.
  destruct (OpenFile_Ok _ _ _ _ _ _ Hopen) as [Hfd Hfiles].
  pose proof (MkdirAll_files (Dir filename) (Z.lor ModeDir mode_0755) w) as Hf1.
  rewrite Hmk in Hf1. cbn [snd] in Hf1.
  destruct (Flock f (Z.lor LOCK_EX LOCK_NB) w2) as [locked w'] eqn:Hflock.
  exists locked, w'.
  split; [reflexivity|].
  split.
  { unfold initLogFile, bind, ret. rewrite Hmk, Hopen, Hflock. reflexivity. }
  split.
  { pose proof (Flock_fdtab f (Z.lor LOCK_EX LOCK_NB) w2) as Ht.
    rewrite Hflock in Ht. cbn [snd] in Ht. rewrite Ht. exact Hfd. }
  split; [reflexivity|].
  unfold held_elsewhere. intros Hheld.
  destruct (files w !! filename) as [x|] eqn:Hx; [|discriminate Hheld].
  apply bool_decide_eq_true_1 in Hheld.
  assert (Hf2 : files w2 = files w).
  { rewrite <- Hf1. apply Hfiles; [|reflexivity]. rewrite Hf1, Hx. eauto. }
  rewrite (Flock_held f _ w2 _ x Hfd) in Hflock.
  - injection Hflock as <- <-. split; [reflexivity|]. exact Hf2.
  - cbn [d_path]. rewrite Hf2. exact Hx.
  - exact Hheld.
Qed.

(** C9, as the code has it.  Whatever the path and the mode of operation,
    the first call is [MkdirAll] on the directory of the path, with
    [ModeDir|0755]; when it fails nothing else is called, and when it
    succeeds the directory is there; every [OpenFile] comes after it and
    asks for mode [0664], which lets the owner and the group read and
    write and lets other users read (and nothing more). *)
Theorem initLogFile_mkdir_first_mode_0664 (filename : string) (append : bool) (w : World) :
  exists rest,
    trace (snd (initLogFile Dir filename append w))
      = trace w ++ SysMkdirAll (Dir filename) (Z.lor ModeDir mode_0755) :: rest
    /\ Forall (after_mkdir mode_0664) rest
    /\ (if allowed w (Dir filename)
        then Dir filename ∈ dirs (snd (initLogFile Dir filename append w))
        else rest = []
             /\ fst (initLogFile Dir filename append w) = Err (Errno EACCES))
    /\ Z.shiftr mode_0664 6 = 6%Z
    /\ Z.land (Z.shiftr mode_0664 3) 7 = 6%Z
    /\ others_bits mode_0664 = 4%Z.
Proof.
  unfold initLogFile, bind, ret, allowed.
  run (MkdirAll (Dir filename) (Z.lor ModeDir mode_0755) w)
      (MkdirAll_trace (Dir filename) (Z.lor ModeDir mode_0755) w) e w1 T1.
  assert (Hmk : if bool_decide (Dir filename ∉ denied w)
                then e = None /\ Dir filename ∈ dirs w1
                else e = Some (Errno EACCES)).
  { unfold MkdirAll in E. cbn in E.
    case_bool_decide as Hd; case_decide; try tauto; injection E as <- <-.
    - split; [reflexivity|]. cbn. set_solver.
    - reflexivity. }
  assert (Hbits : Z.shiftr mode_0664 6 = 6%Z
                  /\ Z.land (Z.shiftr mode_0664 3) 7 = 6%Z
                  /\ others_bits mode_0664 = 4%Z) by (repeat split).
  destruct (bool_decide (Dir filename ∉ denied w)).
  2:{ subst e. exists []. cbn [snd fst]. rewrite T1.
      repeat split; constructor. }
  destruct Hmk as [-> Hin].
  destruct append.
  - run (OpenFile filename (Z.lor (Z.lor O_RDWR O_CREATE) O_APPEND) mode_0664 w1)
        (OpenFile_trace filename (Z.lor (Z.lor O_RDWR O_CREATE) O_APPEND) mode_0664 w1)
        r w2 T2.
    pose proof (OpenFile_dirs filename (Z.lor (Z.lor O_RDWR O_CREATE) O_APPEND) mode_0664 w1) as D2.
    rewrite E0 in D2. cbn [snd] in D2.
    destruct r as [f|err]; cbn [snd].
    + run (Flock f (Z.lor LOCK_EX LOCK_NB) w2)
          (Flock_trace f (Z.lor LOCK_EX LOCK_NB) w2) l w3 T3.
      pose proof (Flock_dirs f (Z.lor LOCK_EX LOCK_NB) w2) as D3.
      rewrite E1 in D3. cbn [snd] in D3.
      eexists. cbn [snd]. split; [|split; [|split; [|exact Hbits]]].
      * rewrite T3, T2, T1, <- !app_assoc. reflexivity.
      * repeat constructor.
      * rewrite D3, D2. exact Hin.
    + eexists. split; [|split; [|split; [|exact Hbits]]].
      * rewrite T2, T1, <- !app_assoc. reflexivity.
      * repeat constructor.
      * rewrite D2. exact Hin.
  - destruct (tryFiles_calls filename (Z.to_nat fileAttempts) 0%Z w1)
      as (rest & Hrest & Hall).
    exists rest. split; [|split; [exact Hall|split; [|exact Hbits]]].
    + rewrite Hrest, T1, <- app_assoc. reflexivity.
    + rewrite tryFiles_dirs. exact Hin.
Qed.

End SelectorFacts.

Module SelectorRuns.

Import OS Words.
Local Open Scope Z_scope.

Lemma initLogFile_skips_held_base_witness :
  allowed Demo.one_held (Demo.Dir "out/app.log") = true
  /\ held_elsewhere Demo.one_held "out/app.log" = true
  /\ available Demo.one_held "out/app.log.1" = true
  /\ exists f w',
       initLogFile Demo.Dir "out/app.log" false Demo.one_held = (Ok f, w')
       /\ fdtab w' !! f = Some (Desc "out/app.log.1" (Z.lor O_RDWR O_CREATE) 0)
       /\ "out/app.log.1" <> "out/app.log"
       /\ (exists perm,
             files w' !! "out/app.log.1" = Some (File [] perm (Some (Here f)) true))
       /\ files w' !! "out/app.log" = files Demo.one_held !! "out/app.log"
       /\ (exists before,
             trace w' = (trace Demo.one_held ++ before
                           ++ [SysTruncate f 0; SysSeek f 0 0])%list
             /\ opened before = ["out/app.log"; "out/app.log.1"]).
Proof.
  split; [reflexivity|]. split; [reflexivity|]. split; [reflexivity|].
  apply (initLogFile_skips_held_base Demo.Dir "out/app.log" Demo.one_held);
    reflexivity.
Defined.

Lemma initLogFile_gives_up_after_ten_witness :
  allowed Demo.all_held (Demo.Dir "out/app.log") = true
  /\ candidates_held Demo.all_held "out/app.log" = true
  /\ exists w' calls,
       initLogFile Demo.Dir "out/app.log" false Demo.all_held
       = (Err (Errorf "Failed to acquire a log file after 10 attempts"), w')
       /\ trace w'
          = (trace Demo.all_held
               ++ SysMkdirAll (Demo.Dir "out/app.log") (Z.lor ModeDir mode_0755) :: calls)%list
       /\ opened calls = map (logFileName "out/app.log") (seqZ 0 10)
       /\ length (opened calls) = 10%nat
       /\ ~ In (logFileName "out/app.log" 10) (opened calls)
       /\ files w' = files Demo.all_held
       /\ fdtab w' = fdtab Demo.all_held.
Proof.
  split; [reflexivity|]. split; [vm_compute; reflexivity|].
  apply (initLogFile_gives_up_after_ten Demo.Dir "out/app.log" Demo.all_held);
    vm_compute; reflexivity.
Defined.

Lemma initLogFile_append_ignores_lock_witness :
  let m := MkdirAll (Demo.Dir "out/app.log") (Z.lor ModeDir mode_0755) Demo.one_held in
  let o := OpenFile "out/app.log" (Z.lor (Z.lor O_RDWR O_CREATE) O_APPEND) mode_0664 (snd m) in
  m = (None, snd m)
  /\ o = (Ok 0%nat, snd o)
  /\ held_elsewhere Demo.one_held "out/app.log" = true
  /\ exists w',
       initLogFile Demo.Dir "out/app.log" true Demo.one_held = (Ok 0%nat, w')
       /\ files w' = files Demo.one_held.
Proof.
  intros m o.
  assert (Hm : m = (None, snd m)) by reflexivity.
  assert (Ho : o = (Ok 0%nat, snd o)) by reflexivity.
  split; [exact Hm|]. split; [exact Ho|]. split; [reflexivity|].
  destruct (initLogFile_append_ignores_lock Demo.Dir "out/app.log"
              Demo.one_held (snd m) (snd o) 0%nat Hm Ho)
    as (locked & w' & _ & Hrun & _ & _ & Hheld).
  exists w'. split; [exact Hrun|].
  apply Hheld. reflexivity.
Defined.

(** C9 as stated fails: in either mode the file is opened with mode
    [0664], whose bits for other users are not zero (they may read). *)
Lemma initLogFile_mode_grants_read_to_others :
  trace (snd (initLogFile Demo.Dir "out/app.log" true (Demo.world_of [])))
  = [ SysMkdirAll "out" (Z.lor ModeDir mode_0755);
      SysOpen "out/app.log" (Z.lor (Z.lor O_RDWR O_CREATE) O_APPEND) mode_0664;
      SysFlock 0%nat (Z.lor LOCK_EX LOCK_NB) ]
  /\ trace (snd (initLogFile Demo.Dir "out/app.log" false (Demo.world_of [])))
     = [ SysMkdirAll "out" (Z.lor ModeDir mode_0755);
         SysOpen "out/app.log" (Z.lor O_RDWR O_CREATE) mode_0664;
         SysFlock 0%nat (Z.lor LOCK_EX LOCK_NB);
         SysTruncate 0%nat 0; SysSeek 0%nat 0 0 ]
  /\ others_bits mode_0664 = 4
  /\ others_bits mode_0664 <> 0
  /\ others_bits (Z.lor ModeDir mode_0755) <> 0.
Proof.
  split; [vm_compute; reflexivity|]. split; [vm_compute; reflexivity|].
  split; [reflexivity|]. split; discriminate.
Qed.

End SelectorRuns.

(** ** The registry *)

Section RegistryFacts.

Lemma snapshot_lookup (t : gmap string Level) (mods : gset string) (k : string) :
  snapshot t mods !! k
  = if decide (k = "" \/ k ∈ mods) then Some (Logging.GetLevel t k) else None.
Proof.
  unfold snapshot.
  set (P := fun (acc : gmap string Level) (X : gset string) =>
              acc !! k
              = if decide (k = "" \/ k ∈ X) then Some (Logging.GetLevel t k) else None).
  change (P (set_fold (record_level t) (record_level t "" ∅) mods) mods).
  apply set_fold_ind_L; unfold P.
  - unfold record_level. destruct (decide (k = "")) as [->|Hk].
    + rewrite lookup_insert_eq, decide_True by (left; reflexivity). reflexivity.
    + rewrite lookup_insert_ne, lookup_empty by congruence.
      rewrite decide_False by set_solver. reflexivity.
  - intros x X acc Hx IH. unfold record_level.
    destruct (decide (x = k)) as [->|Hne].
    + rewrite lookup_insert_eq, decide_True by set_solver. reflexivity.
    + rewrite lookup_insert_ne, IH by exact Hne.
      destruct (decide (k = "" \/ k ∈ X)) as [Hin|Hout].
      * rewrite decide_True by set_solver. reflexivity.
      * rewrite decide_False by set_solver. reflexivity.
Qed.

Lemma snapshot_dom (t : gmap string Level) (mods : gset string) :
  dom (snapshot t mods) = {[""]} ∪ mods.
Proof.
  apply set_eq. intros k. rewrite elem_of_dom, snapshot_lookup.
  case_decide as H.
  - split; [intros _; set_solver | eauto].
  - split; [intros [? ?]; discriminate | set_solver].
Qed.

(** What [ModuleLevels] does on a bound registry. *)
Lemma ModuleLevels_bound (p : Process) (t : gmap string Level) :
  table p = Some t ->
  ModuleLevels p
  = (Returns (fresh (dom (heap p))),
     set_heap (<[fresh (dom (heap p)) := snapshot t (modules (logInfo p))]> (heap p)) p).
Proof.
  destruct p as [w h [b mods] lf db].
  unfold table, ModuleLevels, alloc, set_heap.
  cbn [heap logInfo backend modules world logFile defaultBackend].
  intros Ht.
  destruct b as [b|]; [|discriminate].
  assert (Hb : fresh (dom h) <> b).
  { intros <-. pose proof (is_fresh (dom h)) as Hf.
    apply not_elem_of_dom_1 in Hf. congruence. }
  unfold table. cbn [heap logInfo backend].
  rewrite lookup_insert_ne by exact Hb. rewrite Ht.
  rewrite insert_insert_eq. reflexivity.
Qed.

Lemma ModuleLevels_unbound (p : Process) :
  backend (logInfo p) = None -> fst (ModuleLevels p) = Panics.
Proof.
  destruct p as [w h [b mods] lf db].
  unfold ModuleLevels, alloc, table, set_heap.
  cbn [heap logInfo backend modules world logFile defaultBackend].
  intros ->. unfold table. reflexivity.
Qed.

Lemma SetLevel_bound (level : Level) (module : string) (p : Process)
    (b : Logging.loc) (t : gmap string Level) :
  backend (logInfo p) = Some b -> heap p !! b = Some t ->
  SetLevel level module p
  = (Returns tt, set_heap (<[b := <[module := level]> t]> (heap p)) p).
Proof. unfold SetLevel. intros -> ->. reflexivity. Qed.

Lemma table_Some (p : Process) (t : gmap string Level) :
  table p = Some t ->
  exists b, backend (logInfo p) = Some b /\ heap p !! b = Some t.
Proof.
  unfold table. destruct (backend (logInfo p)) as [b|]; [|discriminate].
  intros H. exists b. split; [reflexivity | exact H].
Qed.

Lemma fresh_not_allocated (h : gmap Logging.loc (gmap string Level))
    (l : Logging.loc) :
  is_Some (h !! l) -> fresh (dom h) <> l.
Proof.
  intros Hl <-. pose proof (is_fresh (dom h)) as Hf.
  apply not_elem_of_dom_1 in Hf. rewrite Hf in Hl.
  destruct Hl as [? Hl]. discriminate Hl.
Qed.

(** C4, as the code has it.  While no backend is bound, [ModuleLevels]
    and [SetLevel] panic on the nil backend; neither has an error result
    to return, and the registry is left as it was. *)
Theorem unbound_registry_panics (p : Process) (level : Level) (module : string) :
  backend (logInfo p) = None ->
  fst (ModuleLevels p) = Panics
  /\ logInfo (snd (ModuleLevels p)) = logInfo p
  /\ SetLevel level module p = (Panics, p).
Proof.
  intros Hb. split; [exact (ModuleLevels_unbound p Hb)|]. split.
  - unfold ModuleLevels, alloc. cbn [fst snd].
    destruct (table _); reflexivity.
  - unfold SetLevel. rewrite Hb. reflexivity.
Qed.

(** C7.  On a bound registry, a [SetLevel] for a registered module shows
    in the next [ModuleLevels] with the registry untouched in between.
    The map returned lives at a fresh address, which is not the address of
    the backend's table: whatever the caller writes there, the registry,
    the backend's table and the contents of the next [ModuleLevels] stay
    the same. *)
Theorem SetLevel_shows_in_fresh_ModuleLevels (p : Process)
    (t : gmap string Level) (level : Level) (module : string) :
  table p = Some t ->
  module ∈ modules (logInfo p) ->
  exists p1 m p2 snap,
    SetLevel level module p = (Returns tt, p1)
    /\ logInfo p1 = logInfo p
    /\ ModuleLevels p1 = (Returns m, p2)
    /\ heap p2 !! m = Some snap
    /\ snap !! module = Some level
    /\ (m ∉ dom (heap p1))
    /\ backend (logInfo p1) <> Some m
    /\ forall written : gmap string Level,
         let q := set_heap (<[m := written]> (heap p2)) p2 in
         logInfo q = logInfo p2
         /\ table q = table p2
         /\ exists m' q',
              ModuleLevels q = (Returns m', q')
              /\ heap q' !! m' = Some snap
              /\ m' <> m.
Proof.
  intros Ht Hmod. destruct (table_Some p t Ht) as (b & Hb & Hlook).
  set (t1 := <[module := level]> t).
  set (p1 := set_heap (<[b := t1]> (heap p)) p).
  assert (Ht1 : table p1 = Some t1).
  { unfold table, p1, set_heap. cbn [logInfo heap]. rewrite Hb.
    apply lookup_insert_eq. }
  set (m := fresh (dom (heap p1))).
  assert (Hmb : m <> b).
  { apply fresh_not_allocated. unfold p1, set_heap. cbn [heap].
    rewrite lookup_insert_eq. eauto. }
  set (snap := snapshot t1 (modules (logInfo p1))).
  exists p1, m, (set_heap (<[m := snap]> (heap p1)) p1), snap.
  split; [exact (SetLevel_bound level module p b t Hb Hlook)|].
  split; [reflexivity|].
  split; [exact (ModuleLevels_bound p1 t1 Ht1)|].
  split; [apply lookup_insert_eq|].
  split.
  { unfold snap. rewrite snapshot_lookup.
    rewrite decide_True by (right; exact Hmod).
    unfold Logging.GetLevel, t1. rewrite lookup_insert_eq. reflexivity. }
  split; [apply is_fresh|].
  split.
  { change (backend (logInfo p1)) with (backend (logInfo p)).
    rewrite Hb. congruence. }
  intros written q.
  assert (Htq : table q = Some t1).
  { unfold table, q, set_heap. cbn [logInfo heap].
    change (backend (logInfo p1)) with (backend (logInfo p)). rewrite Hb.
    rewrite insert_insert_eq, lookup_insert_ne by exact Hmb.
    unfold p1, set_heap. cbn [heap]. apply lookup_insert_eq. }
  split; [reflexivity|].
  split.
  { rewrite Htq. unfold table, set_heap. cbn [logInfo heap].
    change (backend (logInfo p1)) with (backend (logInfo p)). rewrite Hb.
    rewrite lookup_insert_ne by exact Hmb.
    unfold p1, set_heap. cbn [heap]. rewrite lookup_insert_eq. reflexivity. }
  eexists _, _. split; [exact (ModuleLevels_bound q t1 Htq)|].
  split; [apply lookup_insert_eq|].
  apply fresh_not_allocated. unfold q, set_heap. cbn [heap].
  rewrite lookup_insert_eq. eauto.
Qed.

(** C8.  Registering a name a second time changes nothing.  On a bound
    registry [ModuleLevels] then returns a map whose keys are the empty
    module, that name and the names registered before; the name and the
    empty module each have their level from the backend; and on a
    registry that held no other name, the map has exactly these two
    entries. *)
Theorem Register_idempotent (name : string) (p : Process) :
  Register name (Register name p) = Register name p
  /\ forall t, table p = Some t ->
       exists m p' snap,
         ModuleLevels (Register name (Register name p)) = (Returns m, p')
         /\ heap p' !! m = Some snap
         /\ dom snap = {[""]} ∪ {[name]} ∪ modules (logInfo p)
         /\ snap !! name = Some (Logging.GetLevel t name)
         /\ snap !! "" = Some (Logging.GetLevel t "")
         /\ (modules (logInfo p) = ∅ -> name <> "" -> size snap = 2).
Proof.
  assert (Hidem : Register name (Register name p) = Register name p).
  { unfold Register, set_logInfo. cbn [logInfo backend modules world heap logFile defaultBackend].
    f_equal. f_equal. set_solver. }
  split; [exact Hidem|]. intros t Ht. rewrite Hidem.
  assert (Ht' : table (Register name p) = Some t) by exact Ht.
  eexists _, _, _. split; [exact (ModuleLevels_bound _ t Ht')|].
  split; [apply lookup_insert_eq|].
  assert (Hdom : dom (snapshot t (modules (logInfo (Register name p))))
                 = {[""]} ∪ {[name]} ∪ modules (logInfo p)).
  { rewrite snapshot_dom. cbn [Register set_logInfo logInfo modules]. set_solver. }
  split; [exact Hdom|].
  split.
  { rewrite snapshot_lookup, decide_True; [reflexivity|].
    right. cbn [Register set_logInfo logInfo modules]. set_solver. }
  split.
  { rewrite snapshot_lookup, decide_True; [reflexivity|]. left. reflexivity. }
  intros Hempty Hne.
  rewrite <- size_dom, Hdom, Hempty.
  rewrite union_empty_r_L, size_union by set_solver.
  rewrite !size_singleton. reflexivity.
Qed.

End RegistryFacts.

Section InitFacts.

Variable Dir : string -> string.

Lemma initialiseLogging_bind (v : Verbosity) (p : Process) :
  initialiseLogging v p
  = mkProcess (world p)
      (<[fresh (dom (heap p)) := Logging.SetLevel v "" ∅]> (heap p))
      (mkInfo (Some (fresh (dom (heap p)))) (modules (logInfo p)))
      (logFile p)
      [fresh (dom (heap p))].
Proof. reflexivity. Qed.

(** What an initialisation leaves in the registry and on the heap: the
    registry points to a new backend whose only level is the verbosity
    asked for, it tracks the same modules, and the tables that were there
    are as before. *)
Lemma InitLoggingOptions_registry (o : Options) (p : Process) :
  logInfo (snd (InitLoggingOptions Dir o p))
  = mkInfo (Some (fresh (dom (heap p)))) (modules (logInfo p))
  /\ heap (snd (InitLoggingOptions Dir o p)) !! fresh (dom (heap p))
     = Some (Logging.SetLevel (o_Verbosity o) "" ∅)
  /\ (forall l, is_Some (heap p !! l) ->
        heap (snd (InitLoggingOptions Dir o p)) !! l = heap p !! l).
Proof.
  unfold InitLoggingOptions. rewrite initialiseLogging_bind.
  set (b := fresh (dom (heap p))).
  assert (Hold : forall l, is_Some (heap p !! l) -> b <> l)
    by (intros l Hl; exact (fresh_not_allocated _ l Hl)).
  destruct (String.eqb (o_File o) "").
  { cbn [snd logInfo heap]. split; [reflexivity|].
    split; [apply lookup_insert_eq|].
    intros l Hl. apply lookup_insert_ne. exact (Hold l Hl). }
  cbn [world].
  destruct (initLogFile Dir (o_File o) (o_Append o) (world p)) as [[f|e] w].
  2:{ cbn [snd set_world logInfo heap]. split; [reflexivity|].
      split; [apply lookup_insert_eq|].
      intros l Hl. apply lookup_insert_ne. exact (Hold l Hl). }
  unfold initLogging, alloc, set_logFile, set_world, set_heap, set_defaultBackend.
  cbn [snd logInfo heap world logFile defaultBackend backend].
  set (h1 := <[b := Logging.SetLevel (o_Verbosity o) "" ∅]> (heap p)).
  assert (Hb : fresh (dom h1) <> b).
  { apply fresh_not_allocated. unfold h1. rewrite lookup_insert_eq. eauto. }
  split; [reflexivity|].
  split.
  { rewrite lookup_insert_ne by exact Hb. apply lookup_insert_eq. }
  intros l Hl.
  rewrite lookup_insert_ne.
  - apply lookup_insert_ne. exact (Hold l Hl).
  - apply fresh_not_allocated. unfold h1.
    rewrite lookup_insert_ne by exact (Hold l Hl). exact Hl.
Qed.

(** C6.  After a second initialisation the registry tracks the modules it
    tracked before, and its backend is the one that initialisation has just
    made, distinct from the first: [ModuleLevels] reads the levels of that
    backend, [SetLevel] writes into its table and leaves the first
    backend's table alone.  Of the registry's operations none changes the
    backend reference, so this holds for all later calls. *)
Theorem second_initialisation_rebinds (o1 o2 : Options) (p : Process) :
  exists b1 b2 t2,
    backend (logInfo (snd (InitLoggingOptions Dir o1 p))) = Some b1
    /\ backend (logInfo (snd (InitLoggingOptions Dir o2 (snd (InitLoggingOptions Dir o1 p)))))
       = Some b2
    /\ b2 = fresh (dom (heap (snd (InitLoggingOptions Dir o1 p))))
    /\ b1 <> b2
    /\ modules (logInfo (snd (InitLoggingOptions Dir o2 (snd (InitLoggingOptions Dir o1 p)))))
       = modules (logInfo (snd (InitLoggingOptions Dir o1 p)))
    /\ modules (logInfo (snd (InitLoggingOptions Dir o1 p))) = modules (logInfo p)
    /\ heap (snd (InitLoggingOptions Dir o2 (snd (InitLoggingOptions Dir o1 p)))) !! b2
       = Some t2
    /\ t2 = Logging.SetLevel (o_Verbosity o2) "" ∅
    /\ (let p2 := snd (InitLoggingOptions Dir o2 (snd (InitLoggingOptions Dir o1 p))) in
        ModuleLevels p2
        = (Returns (fresh (dom (heap p2))),
           set_heap (<[fresh (dom (heap p2)) := snapshot t2 (modules (logInfo p2))]> (heap p2)) p2)
        /\ forall level module,
             SetLevel level module p2
             = (Returns tt, set_heap (<[b2 := <[module := level]> t2]> (heap p2)) p2)
             /\ heap (snd (SetLevel level module p2)) !! b1 = heap p2 !! b1)
    /\ (forall q level module,
          backend (logInfo (snd (SetLevel level module q))) = backend (logInfo q))
    /\ (forall q, backend (logInfo (snd (ModuleLevels q))) = backend (logInfo q))
    /\ (forall q name, backend (logInfo (Register name q)) = backend (logInfo q)).
Proof.
  set (p1 := snd (InitLoggingOptions Dir o1 p)).
  set (p2 := snd (InitLoggingOptions Dir o2 p1)).
  destruct (InitLoggingOptions_registry o1 p) as (Hi1 & Hh1 & _).
  destruct (InitLoggingOptions_registry o2 p1) as (Hi2 & Hh2 & Hold2).
  fold p1 in Hi1, Hh1. fold p2 in Hi2, Hh2, Hold2.
  set (b1 := fresh (dom (heap p))) in *.
  set (b2 := fresh (dom (heap p1))) in *.
  assert (Hne : b1 <> b2).
  { intros Heq. apply (fresh_not_allocated (heap p1) b1); [|symmetry; exact Heq].
    rewrite Hh1. eauto. }
  assert (Hb2 : backend (logInfo p2) = Some b2) by (rewrite Hi2; reflexivity).
  exists b1, b2, (Logging.SetLevel (o_Verbosity o2) "" ∅).
  split; [rewrite Hi1; reflexivity|].
  split; [exact Hb2|].
  split; [reflexivity|].
  split; [exact Hne|].
  split; [rewrite Hi2; reflexivity|].
  split; [rewrite Hi1; reflexivity|].
  split; [exact Hh2|].
  split; [reflexivity|].
  split.
  { cbn zeta. split.
    - apply ModuleLevels_bound. unfold table. rewrite Hb2. exact Hh2.
    - intros level module.
      rewrite (SetLevel_bound level module p2 b2 _ Hb2 Hh2).
      split; [reflexivity|].
      cbn [snd set_heap heap]. apply lookup_insert_ne. congruence. }
  split.
  { intros q level module. unfold SetLevel.
    destruct (backend (logInfo q)) as [b|] eqn:Hb; [|cbn [snd]; exact Hb].
    destruct (heap q !! b); cbn [snd set_heap logInfo]; exact Hb. }
  split.
  { intros q. unfold ModuleLevels, alloc.
    destruct (table _); reflexivity. }
  intros q name. reflexivity.
Qed.

End InitFacts.

Module RegistryRuns.

Lemma unbound_registry_panics_witness :
  backend (logInfo (start (Demo.world_of []))) = None
  /\ fst (ModuleLevels (start (Demo.world_of []))) = Panics
  /\ logInfo (snd (ModuleLevels (start (Demo.world_of []))))
     = logInfo (start (Demo.world_of []))
  /\ SetLevel DEBUG "net" (start (Demo.world_of []))
     = (Panics, start (Demo.world_of [])).
Proof.
  split; [reflexivity|].
  apply (unbound_registry_panics (start (Demo.world_of [])) DEBUG "net").
  reflexivity.
Defined.

(** C4 as stated fails: on a process that has not initialised logging,
    both calls dereference the nil backend and panic; no error comes
    back. *)
Lemma unbound_calls_panic :
  backend (logInfo (start (Demo.world_of []))) = None
  /\ fst (ModuleLevels (start (Demo.world_of []))) = Panics
  /\ fst (SetLevel DEBUG "net" (start (Demo.world_of []))) = Panics
  /\ fst (ModuleLevels (MustGetLoggerNamed "net" (start (Demo.world_of [])))) = Panics.
Proof. repeat split. Qed.

Lemma SetLevel_shows_in_fresh_ModuleLevels_witness :
  table Demo.bound_one = Some {[ "" := WARNING ]}
  /\ "net" ∈ modules (logInfo Demo.bound_one)
  /\ exists p1 m p2 snap,
       SetLevel DEBUG "net" Demo.bound_one = (Returns tt, p1)
       /\ ModuleLevels p1 = (Returns m, p2)
       /\ heap p2 !! m = Some snap
       /\ snap !! "net" = Some DEBUG.
Proof.
  assert (Ht : table Demo.bound_one = Some {[ "" := WARNING ]}) by reflexivity.
  assert (Hm : "net" ∈ modules (logInfo Demo.bound_one)) by (vm_compute; reflexivity).
  split; [exact Ht|]. split; [exact Hm|].
  destruct (SetLevel_shows_in_fresh_ModuleLevels Demo.bound_one _ DEBUG "net" Ht Hm)
    as (p1 & m & p2 & snap & H1 & _ & H2 & H3 & H4 & _).
  exists p1, m, p2, snap. repeat split; assumption.
Defined.

Lemma Register_idempotent_witness :
  table (InitLogging WARNING (start (Demo.world_of []))) = Some {[ "" := WARNING ]}
  /\ exists m p' snap,
       ModuleLevels
         (Register "net" (Register "net" (InitLogging WARNING (start (Demo.world_of [])))))
       = (Returns m, p')
       /\ heap p' !! m = Some snap
       /\ size snap = 2.
Proof.
  assert (Ht : table (InitLogging WARNING (start (Demo.world_of [])))
               = Some {[ "" := WARNING ]}) by reflexivity.
  split; [exact Ht|].
  destruct (Register_idempotent "net" (InitLogging WARNING (start (Demo.world_of []))))
    as [_ H].
  destruct (H _ Ht) as (m & p' & snap & H1 & H2 & _ & _ & _ & H3).
  exists m, p', snap. split; [exact H1|]. split; [exact H2|].
  apply H3; [reflexivity | discriminate].
Defined.

End RegistryRuns.

(** * Further properties *)

(** ** The candidates and the rounds of the loop *)

Section Rounds.

Import OS Words Owned OSFacts.
Local Open Scope list_scope.

Ltac project :=
  lazy beta iota zeta delta
    [files dirs denied umask fdtab trace log set_files set_dirs set_fdtab
     fst snd d_path d_flag d_offset f_data f_lock f_perm f_regular
     negb orb andb].

Ltac crunch :=
  repeat first
    [ rewrite lookup_insert_eq
    | progress project
    | progress change (0 + 0)%Z with 0%Z
    | progress change (0 <? 0)%Z with false
    | progress change (0 =? 0)%Z with true
    | progress change (Z.to_nat 0) with 0%nat
    | progress change (resize 0 ?d) with (@nil ascii) ].

(** X1.  Different attempts give different names, whatever the base: no
    candidate is tried twice. *)
Theorem logFileName_injective (base : string) (i j : Z) :
  (Strconv.minInt <= i <= Strconv.maxInt)%Z ->
  (Strconv.minInt <= j <= Strconv.maxInt)%Z ->
  i <> j ->
  logFileName base i <> logFileName base j.
Proof.
  intros Hi Hj Hne Heq. unfold logFileName in Heq.
  destruct (Z.eqb_spec i 0) as [->|Hi0]; destruct (Z.eqb_spec j 0) as [->|Hj0].
  - congruence.
  - symmetry in Heq. apply append_grows in Heq. discriminate Heq.
  - apply append_grows in Heq. discriminate Heq.
  - apply append_cancel in Heq. injection Heq as Heq.
    change (Strconv.Itoa i = Strconv.Itoa j) in Heq.
    pose proof (StringFacts.Atoi_Itoa i Hi) as Ai.
    pose proof (StringFacts.Atoi_Itoa j Hj) as Aj.
    rewrite Heq, Aj in Ai. congruence.
Qed.

(** A round on a name the system refuses to open ends the search. *)
Lemma round_denied (filename : string) (left : nat) (i : Z) (w : World) :
  allowed w (logFileName filename i) = false ->
  tryFiles filename (S left) i w
  = (Err (Errno EACCES),
     log (SysOpen (logFileName filename i) freshFlags mode_0664) w).
Proof.
  cbn [tryFiles]. generalize (logFileName filename i). intros p.
  unfold allowed. intros Ha. apply bool_decide_eq_false_1 in Ha.
  unfold bind, ret, OpenFile. project.
  rewrite decide_True by (destruct (decide (p ∈ denied w)); tauto).
  reflexivity.
Qed.

(** A round on a file locked by anybody but the new descriptor, be it
    another process or an older descriptor of this one. *)
Lemma round_busy (filename : string) (left : nat) (i : Z) (w : World)
    (x : file) (h : holder) :
  allowed w (logFileName filename i) = true ->
  files w !! logFileName filename i = Some x ->
  f_lock x = Some h ->
  h <> Here (fresh (dom (fdtab w))) ->
  tryFiles filename (S left) i w
  = tryFiles filename left (i + 1)
      (mkWorld (files w) (dirs w) (denied w) (umask w) (fdtab w)
         (trace w ++ failed_attempt (logFileName filename i) (fresh (dom (fdtab w))))).
Proof.
  cbn [tryFiles]. generalize (logFileName filename i). intros p.
  destruct w as [fs ds dn um ft tr].
  unfold allowed. project. intros Ha Hx Hl Hh.
  apply bool_decide_eq_true_1 in Ha.
  unfold bind, OpenFile, Flock, Close. project.
  rewrite decide_False by exact Ha. rewrite Hx, no_trunc_flag. project.
  rewrite lookup_insert_eq. project. rewrite Hx.
  rewrite decide_False
    by (rewrite Hl; intros [H|H]; [discriminate H | injection H as H; exact (Hh H)]).
  project. rewrite lookup_insert_eq. project. rewrite Hx.
  rewrite decide_False by (rewrite Hl; intros H; injection H as H; exact (Hh H)).
  rewrite delete_insert_id by (apply not_elem_of_dom_1, is_fresh).
  project. unfold failed_attempt. rewrite <- !app_assoc. reflexivity.
Qed.

(** A round on an unlocked file that cannot be truncated: the lock is
    taken, the truncation fails, and the descriptor is closed, which gives
    the lock back.  The search ends with the error of the truncation. *)
Lemma round_special (filename : string) (left : nat) (i : Z) (w : World) :
  allowed w (logFileName filename i) = true ->
  special w (logFileName filename i) = true ->
  tryFiles filename (S left) i w
  = (Err (Errno EINVAL),
     mkWorld (files w) (dirs w) (denied w) (umask w) (fdtab w)
       (trace w ++ [ SysOpen (logFileName filename i) freshFlags mode_0664;
                     SysFlock (fresh (dom (fdtab w))) (Z.lor LOCK_EX LOCK_NB);
                     SysTruncate (fresh (dom (fdtab w))) 0;
                     SysClose (fresh (dom (fdtab w))) ])).
Proof.
  cbn [tryFiles]. generalize (logFileName filename i). intros p.
  destruct w as [fs ds dn um ft tr].
  unfold allowed, special. project. intros Ha Hs.
  apply bool_decide_eq_true_1 in Ha.
  destruct (fs !! p) as [x|] eqn:Hx; [|discriminate Hs].
  apply andb_prop in Hs as [Hl Hr]. apply bool_decide_eq_true_1 in Hl.
  apply negb_true_iff in Hr.
  unfold bind, ret, OpenFile, Flock, Truncate, Close. project.
  rewrite decide_False by exact Ha. rewrite Hx, no_trunc_flag. crunch.
  rewrite Hx. rewrite decide_True by (left; exact Hl). crunch.
  rewrite Hr. crunch.
  rewrite decide_True by reflexivity. crunch.
  rewrite delete_insert_id by (apply not_elem_of_dom_1, is_fresh).
  rewrite insert_insert_eq.
  rewrite (insert_id fs p) by (rewrite Hx; destruct x; cbn in *; congruence).
  rewrite <- !app_assoc. reflexivity.
Qed.

Lemma held_from_S (w : World) (filename : string) (i : Z) (k : nat) :
  held_from w filename i (S k) = true ->
  allowed w (logFileName filename i) = true
  /\ held_elsewhere w (logFileName filename i) = true
  /\ held_from w filename (i + 1) k = true.
Proof.
  unfold held_from. rewrite seqZ_cons by lia. cbn [forallb].
  replace (Z.pred (Z.of_nat (S k))) with (Z.of_nat k) by lia.
  change (Z.succ i) with (i + 1)%Z.
  intros H. apply andb_prop in H as [H1 H2]. apply andb_prop in H1 as [Ha Hh].
  auto.
Qed.

(** Rounds on files that other processes hold are skipped over: nothing
    changes but the trace. *)
Lemma skip_rounds (filename : string) :
  forall k left i w,
    held_from w filename i k = true ->
    tryFiles filename (k + left) i w
    = tryFiles filename left (i + Z.of_nat k)
        (mkWorld (files w) (dirs w) (denied w) (umask w) (fdtab w)
           (trace w ++ failed_attempts filename (fresh (dom (fdtab w))) i k)).
Proof.
  induction k as [|k IH]; intros left i w H.
  - cbn [Nat.add failed_attempts Z.of_nat].
    rewrite Z.add_0_r, app_nil_r, World_eta. reflexivity.
  - apply held_from_S in H as (Ha & Hh & Hrest).
    change (S k + left)%nat with (S (k + left)).
    rewrite (round_held filename (k + left) i w Ha Hh).
    rewrite IH by exact Hrest.
    project. cbn [failed_attempts]. rewrite <- app_assoc.
    replace (i + 1 + Z.of_nat k)%Z with (i + Z.of_nat (S k))%Z by lia.
    reflexivity.
Qed.

Lemma owned_not_fresh (w : World) (p : string) (x : file) (h : holder) :
  locks_owned w = true ->
  files w !! p = Some x ->
  f_lock x = Some h ->
  h <> Here (fresh (dom (fdtab w))).
Proof.
  unfold locks_owned. intros Hw Hx Hl ->.
  apply bool_decide_eq_true_1 in Hw.
  specialize (Hw p x Hx). cbn beta in Hw.
  unfold lock_owned in Hw. rewrite Hl in Hw.
  apply bool_decide_eq_true_1 in Hw.
  exact (is_fresh (dom (fdtab w)) Hw).
Qed.

(** Taking a file with a new descriptor keeps every lock of the process
    tied to a descriptor. *)
Lemma locks_owned_take (w : World) (p : string) (data : list ascii) (perm : Z)
    (regular : bool) (f : fd) (d : desc) :
  locks_owned w = true ->
  locks_owned
    (mkWorld (<[p := File data perm (Some (Here f)) regular]> (files w))
       (dirs w) (denied w) (umask w) (<[f := d]> (fdtab w)) (trace w))
  = true.
Proof.
  unfold locks_owned. cbn [files fdtab]. intros Hw.
  apply bool_decide_eq_true_1 in Hw. apply bool_decide_eq_true_2.
  apply map_Forall_insert_2.
  - unfold lock_owned. cbn [f_lock]. apply bool_decide_eq_true_2.
    rewrite dom_insert_L. set_solver.
  - intros q x Hx. specialize (Hw q x Hx). cbn beta in *.
    unfold lock_owned in *. destruct (f_lock x) as [[|g]|]; try reflexivity.
    apply bool_decide_eq_true_1 in Hw. apply bool_decide_eq_true_2.
    rewrite dom_insert_L. set_solver.
Qed.

(** What the loop can come to, from a world whose locks are owned: an
    error with files and descriptors as they were, or a new descriptor on
    one candidate, which was available and is now empty and locked. *)
Lemma tryFiles_outcome (filename : string) :
  forall left i w r w',
    locks_owned w = true ->
    tryFiles filename left i w = (r, w') ->
    match r with
    | Err _ => files w' = files w /\ fdtab w' = fdtab w
    | Ok f =>
        f = fresh (dom (fdtab w))
        /\ exists j perm,
             (i <= j < i + Z.of_nat left)%Z
             /\ available w (logFileName filename j) = true
             /\ fdtab w' = <[f := Desc (logFileName filename j) freshFlags 0]> (fdtab w)
             /\ files w'
                = <[logFileName filename j := File [] perm (Some (Here f)) true]> (files w)
    end.
Proof.
  induction left as [|left IH]; intros i w r w' Hw Hrun.
  { cbn [tryFiles] in Hrun. unfold ret in Hrun. injection Hrun as <- <-.
    split; reflexivity. }
  destruct (allowed w (logFileName filename i)) eqn:Ha.
  2:{ rewrite (round_denied filename left i w Ha) in Hrun.
      injection Hrun as <- <-. split; reflexivity. }
  assert (Hfree : available w (logFileName filename i) = true ->
            match r with
            | Err _ => files w' = files w /\ fdtab w' = fdtab w
            | Ok f =>
                f = fresh (dom (fdtab w))
                /\ exists j perm,
                     (i <= j < i + Z.of_nat (S left))%Z
                     /\ available w (logFileName filename j) = true
                     /\ fdtab w' = <[f := Desc (logFileName filename j) freshFlags 0]> (fdtab w)
                     /\ files w'
                        = <[logFileName filename j := File [] perm (Some (Here f)) true]> (files w)
            end).
  { intros Hv. destruct (round_free filename left i w Ha Hv) as [perm Hfr].
    rewrite Hfr in Hrun. injection Hrun as <- <-.
    split; [reflexivity|]. exists i, perm.
    split; [lia|]. split; [exact Hv|]. split; reflexivity. }
  destruct (files w !! logFileName filename i) as [x|] eqn:Hx.
  2:{ apply Hfree. unfold available. rewrite Hx. reflexivity. }
  destruct (f_lock x) as [h|] eqn:Hl.
  - pose proof (owned_not_fresh w _ x h Hw Hx Hl) as Hh.
    rewrite (round_busy filename left i w x h Ha Hx Hl Hh) in Hrun.
    apply IH in Hrun; [|exact Hw].
    destruct r as [f|e]; [|exact Hrun].
    destruct Hrun as (Hf & j & perm & Hj & Hv & Hfd & Hfs).
    split; [exact Hf|]. exists j, perm.
    split; [lia|]. split; [exact Hv|]. split; [exact Hfd | exact Hfs].
  - destruct (f_regular x) eqn:Hr.
    + apply Hfree. unfold available. rewrite Hx, Hl, Hr.
      rewrite bool_decide_eq_true_2 by reflexivity. reflexivity.
    + rewrite (round_special filename left i w Ha) in Hrun.
      * injection Hrun as <- <-. split; reflexivity.
      * unfold special. rewrite Hx, Hl, Hr.
        rewrite bool_decide_eq_true_2 by reflexivity. reflexivity.
Qed.

Variable Dir : string -> string.

Lemma opened_app (a b : list syscall) : opened (a ++ b) = opened a ++ opened b.
Proof. unfold opened. apply flat_map_app. Qed.

Lemma opened_failed_attempts (filename : string) (f : fd) :
  forall k i,
    opened (failed_attempts filename f i k)
    = map (logFileName filename) (seqZ i (Z.of_nat k)).
Proof.
  induction k as [|k IH]; intros i; [reflexivity|].
  cbn [failed_attempts]. rewrite opened_app, IH.
  rewrite (seqZ_cons i (Z.of_nat (S k))) by lia.
  replace (Z.pred (Z.of_nat (S k))) with (Z.of_nat k) by lia.
  reflexivity.
Qed.

Lemma seqZ_snoc (k : nat) : seqZ 0 (Z.of_nat k + 1) = seqZ 0 (Z.of_nat k) ++ [Z.of_nat k].
Proof.
  replace (Z.of_nat k + 1)%Z with (Z.of_nat (S k)) by lia.
  rewrite seqZ_S. reflexivity.
Qed.

(** The run of [initLogFile] in fresh-file mode up to the round on
    candidate [k], when the directory can be made and the candidates before
    [k] are held by other processes. *)
Lemma initLogFile_upto (filename : string) (k : nat) (w : World) :
  allowed w (Dir filename) = true ->
  (k < 10)%nat ->
  held_from w filename 0 k = true ->
  initLogFile Dir filename false w
  = tryFiles filename (S (9 - k)) (Z.of_nat k)
      (mkWorld (files w) ({[Dir filename]} ∪ dirs w) (denied w) (umask w) (fdtab w)
         (trace w ++ SysMkdirAll (Dir filename) (Z.lor ModeDir mode_0755)
            :: failed_attempts filename (fresh (dom (fdtab w))) 0 k)).
Proof.
  intros Hd Hk Hheld. unfold initLogFile, bind.
  rewrite (MkdirAll_allowed _ _ w Hd).
  change (Z.to_nat fileAttempts) with 10%nat.
  replace 10%nat with (k + S (9 - k))%nat by lia.
  rewrite skip_rounds by exact Hheld.
  project. rewrite <- app_assoc. reflexivity.
Qed.

(** X2.  In fresh-file mode the first candidate that is not held is the one
    taken: when the candidates before [k] are held by other processes and
    candidate [k] is available, the descriptor returned is on candidate [k];
    that file is left empty and locked by the descriptor, no other file
    changes, and the names opened are the candidates 0 to [k], in order. *)
Theorem initLogFile_takes_first_free (filename : string) (k : nat) (w : World) :
  allowed w (Dir filename) = true ->
  (k < 10)%nat ->
  held_from w filename 0 k = true ->
  allowed w (logFileName filename (Z.of_nat k)) = true ->
  available w (logFileName filename (Z.of_nat k)) = true ->
  exists perm w' calls,
    initLogFile Dir filename false w = (Ok (fresh (dom (fdtab w))), w')
    /\ fdtab w'
       = <[fresh (dom (fdtab w)) := Desc (logFileName filename (Z.of_nat k)) freshFlags 0]>
           (fdtab w)
    /\ files w'
       = <[logFileName filename (Z.of_nat k)
             := File [] perm (Some (Here (fresh (dom (fdtab w))))) true]> (files w)
    /\ trace w' = trace w ++ SysMkdirAll (Dir filename) (Z.lor ModeDir mode_0755) :: calls
    /\ opened calls = map (logFileName filename) (seqZ 0 (Z.of_nat k + 1)).
Proof.
  intros Hd Hk Hheld Ha Hv.
  rewrite (initLogFile_upto filename k w Hd Hk Hheld).
  match goal with
  | |- context [tryFiles filename (S ?l) ?i ?w1] =>
      destruct (round_free filename l i w1 Ha Hv) as [perm ->]
  end.
  exists perm. eexists _, _. split; [reflexivity|]. cbn [fdtab files trace].
  split; [reflexivity|]. split; [reflexivity|]. split.
  - rewrite <- app_assoc. cbn [app]. reflexivity.
  - rewrite opened_app, opened_failed_attempts, seqZ_snoc, map_app. reflexivity.
Qed.

(** X3.  An error of [os.OpenFile] is not skipped like a lock that is held: when
    the candidates before [k] are held and candidate [k] cannot be opened,
    [initLogFile] returns that error at once.  No later candidate is opened,
    and files and descriptors are as before. *)
Theorem initLogFile_stops_at_open_error (filename : string) (k : nat) (w : World) :
  allowed w (Dir filename) = true ->
  (k < 10)%nat ->
  held_from w filename 0 k = true ->
  allowed w (logFileName filename (Z.of_nat k)) = false ->
  exists w' calls,
    initLogFile Dir filename false w = (Err (Errno EACCES), w')
    /\ files w' = files w
    /\ fdtab w' = fdtab w
    /\ trace w' = trace w ++ SysMkdirAll (Dir filename) (Z.lor ModeDir mode_0755) :: calls
    /\ opened calls = map (logFileName filename) (seqZ 0 (Z.of_nat k + 1)).
Proof.
  intros Hd Hk Hheld Ha.
  rewrite (initLogFile_upto filename k w Hd Hk Hheld).
  rewrite round_denied by exact Ha.
  eexists _, _. split; [reflexivity|]. cbn [fdtab files trace log].
  split; [reflexivity|]. split; [reflexivity|]. split.
  - rewrite <- app_assoc. cbn [app]. reflexivity.
  - rewrite opened_app, opened_failed_attempts, seqZ_snoc, map_app. reflexivity.
Qed.

(** X4.  A candidate that is unlocked but cannot be truncated (a FIFO, say) ends
    the search with the error of the truncation: the lock just taken is given
    back with the close of the descriptor, so that files and descriptors are
    as before, and no later candidate is opened. *)
Theorem initLogFile_stops_at_truncate_error (filename : string) (k : nat) (w : World) :
  allowed w (Dir filename) = true ->
  (k < 10)%nat ->
  held_from w filename 0 k = true ->
  allowed w (logFileName filename (Z.of_nat k)) = true ->
  special w (logFileName filename (Z.of_nat k)) = true ->
  exists w' calls,
    initLogFile Dir filename false w = (Err (Errno EINVAL), w')
    /\ files w' = files w
    /\ fdtab w' = fdtab w
    /\ trace w'
       = trace w ++ SysMkdirAll (Dir filename) (Z.lor ModeDir mode_0755)
           :: calls ++ [SysTruncate (fresh (dom (fdtab w))) 0;
                        SysClose (fresh (dom (fdtab w)))]
    /\ opened calls = map (logFileName filename) (seqZ 0 (Z.of_nat k + 1)).
Proof.
  intros Hd Hk Hheld Ha Hs.
  rewrite (initLogFile_upto filename k w Hd Hk Hheld).
  rewrite round_special by assumption.
  eexists _, (failed_attempts filename (fresh (dom (fdtab w))) 0 k ++ [_; _]).
  split; [reflexivity|]. cbn [fdtab files trace].
  split; [reflexivity|]. split; [reflexivity|]. split.
  - rewrite <- !app_assoc. cbn [app]. reflexivity.
  - rewrite opened_app, opened_failed_attempts, seqZ_snoc, map_app. reflexivity.
Qed.

Lemma append_no_trunc_flag : has_flag appendFlags O_TRUNC = false.
Proof. reflexivity. Qed.

Lemma append_create_flag : has_flag appendFlags O_CREATE = true.
Proof. reflexivity. Qed.

Lemma append_run (filename : string) (w : World) :
  allowed w (Dir filename) = true ->
  allowed w filename = true ->
  initLogFile Dir filename true w
  = (Ok (fresh (dom (fdtab w))),
     mkWorld (appended w filename (fresh (dom (fdtab w))))
       ({[Dir filename]} ∪ dirs w) (denied w) (umask w)
       (<[fresh (dom (fdtab w)) := Desc filename appendFlags 0]> (fdtab w))
       (trace w ++ [ SysMkdirAll (Dir filename) (Z.lor ModeDir mode_0755);
                     SysOpen filename appendFlags mode_0664;
                     SysFlock (fresh (dom (fdtab w))) (Z.lor LOCK_EX LOCK_NB) ])).
Proof.
  intros Hd Ha.
  unfold initLogFile, bind, ret. rewrite (MkdirAll_allowed _ _ w Hd).
  unfold allowed in Ha. apply bool_decide_eq_true_1 in Ha.
  destruct w as [fs ds dn um ft tr]. unfold appended, OpenFile, Flock.
  project. fold appendFlags.
  rewrite decide_False by exact Ha.
  destruct (fs !! filename) as [x|] eqn:Hx.
  - destruct x as [data perm lock regular].
    rewrite append_no_trunc_flag. crunch. rewrite Hx. project.
    destruct (decide (lock = None \/ lock = Some (Here (fresh (dom ft)))));
      project; rewrite <- !app_assoc; reflexivity.
  - rewrite append_create_flag. crunch.
    rewrite decide_True by (left; reflexivity).
    project. rewrite insert_insert_eq, <- !app_assoc. reflexivity.
Qed.

Lemma MkdirAll_denied (dir : string) (perm : Z) (w : World) :
  allowed w dir = false ->
  MkdirAll dir perm w = (Some (Errno EACCES), log (SysMkdirAll dir perm) w).
Proof.
  unfold allowed, MkdirAll. intros Ha. apply bool_decide_eq_false_1 in Ha.
  project.
  rewrite decide_True by (destruct (decide (dir ∈ denied w)); tauto).
  reflexivity.
Qed.

Lemma OpenFile_denied (name : string) (flag perm : Z) (w : World) :
  allowed w name = false ->
  OpenFile name flag perm w = (Err (Errno EACCES), log (SysOpen name flag perm) w).
Proof.
  unfold allowed, OpenFile. intros Ha. apply bool_decide_eq_false_1 in Ha.
  project.
  rewrite decide_True by (destruct (decide (name ∈ denied w)); tauto).
  reflexivity.
Qed.

(** The ways [initLogFile] fails before any file is opened or after the
    open of the one file of append mode. *)
Lemma initLogFile_denied_dir (filename : string) (append : bool) (w : World) :
  allowed w (Dir filename) = false ->
  initLogFile Dir filename append w
  = (Err (Errno EACCES),
     log (SysMkdirAll (Dir filename) (Z.lor ModeDir mode_0755)) w).
Proof.
  intros Hd. unfold initLogFile, bind, ret.
  rewrite (MkdirAll_denied _ _ w Hd). reflexivity.
Qed.

Lemma initLogFile_append_denied (filename : string) (w : World) :
  allowed w (Dir filename) = true ->
  allowed w filename = false ->
  exists w',
    initLogFile Dir filename true w = (Err (Errno EACCES), w')
    /\ files w' = files w /\ fdtab w' = fdtab w.
Proof.
  intros Hd Ha. unfold initLogFile, bind, ret.
  rewrite (MkdirAll_allowed _ _ w Hd).
  rewrite OpenFile_denied by exact Ha.
  eexists. split; [reflexivity|]. split; reflexivity.
Qed.

Lemma initLogFile_fresh_cases (filename : string) (w : World) (r : result fd) (w' : World) :
  locks_owned w = true ->
  initLogFile Dir filename false w = (r, w') ->
  match r with
  | Err _ => files w' = files w /\ fdtab w' = fdtab w
  | Ok f =>
      f = fresh (dom (fdtab w))
      /\ exists j perm,
           (0 <= j < 10)%Z
           /\ available w (logFileName filename j) = true
           /\ fdtab w' = <[f := Desc (logFileName filename j) freshFlags 0]> (fdtab w)
           /\ files w'
              = <[logFileName filename j := File [] perm (Some (Here f)) true]> (files w)
  end.
Proof.
  intros Hw Hrun.
  destruct (allowed w (Dir filename)) eqn:Hd.
  2:{ rewrite (initLogFile_denied_dir filename false w Hd) in Hrun.
      injection Hrun as <- <-. split; reflexivity. }
  unfold initLogFile, bind in Hrun.
  rewrite (MkdirAll_allowed _ _ w Hd) in Hrun.
  apply tryFiles_outcome in Hrun; [|exact Hw].
  exact Hrun.
Qed.

Lemma initLogFile_failure_leaves_no_mark_aux (filename : string) (append : bool)
    (w : World) (e : error) (w' : World) :
  locks_owned w = true ->
  initLogFile Dir filename append w = (Err e, w') ->
  files w' = files w /\ fdtab w' = fdtab w.
Proof.
  intros Hw Hrun. destruct append.
  - destruct (allowed w (Dir filename)) eqn:Hd.
    + destruct (allowed w filename) eqn:Ha.
      * rewrite (append_run filename w Hd Ha) in Hrun. discriminate Hrun.
      * destruct (initLogFile_append_denied filename w Hd Ha) as (w1 & H1 & Hf & Ht).
        rewrite H1 in Hrun. injection Hrun as _ <-. split; assumption.
    + rewrite (initLogFile_denied_dir filename true w Hd) in Hrun.
      injection Hrun as _ <-. split; reflexivity.
  - exact (initLogFile_fresh_cases filename w (Err e) w' Hw Hrun).
Qed.

(** X5.  When [initLogFile] fails, in either mode, no file has been made,
    emptied or left locked and no descriptor is left open: files and
    descriptors are as they were. *)
Theorem initLogFile_failure_leaves_no_mark (filename : string) (append : bool)
    (w : World) (e : error) (w' : World) :
  locks_owned w = true ->
  initLogFile Dir filename append w = (Err e, w') ->
  files w' = files w /\ fdtab w' = fdtab w.
Proof. exact (initLogFile_failure_leaves_no_mark_aux filename append w e w'). Qed.

(** X6.  When [initLogFile] succeeds in fresh-file mode, the process has exactly
    one descriptor more, on one of the ten candidates; that candidate was
    available, it is now empty and locked by the descriptor, and no other
    file has changed.  Every lock of the process still belongs to an open
    descriptor. *)
Theorem initLogFile_fresh_success (filename : string) (w : World) (f : fd) (w' : World) :
  locks_owned w = true ->
  initLogFile Dir filename false w = (Ok f, w') ->
  (f ∉ dom (fdtab w))
  /\ exists j perm,
       (0 <= j < 10)%Z
       /\ available w (logFileName filename j) = true
       /\ fdtab w' = <[f := Desc (logFileName filename j) freshFlags 0]> (fdtab w)
       /\ files w' = <[logFileName filename j := File [] perm (Some (Here f)) true]> (files w)
       /\ locks_owned w' = true.
Proof.
  intros Hw Hrun.
  destruct (initLogFile_fresh_cases filename w (Ok f) w' Hw Hrun)
    as (-> & j & perm & Hj & Hv & Hfd & Hfs).
  split; [apply is_fresh|]. exists j, perm.
  split; [exact Hj|]. split; [exact Hv|]. split; [exact Hfd|]. split; [exact Hfs|].
  pose proof (locks_owned_take w (logFileName filename j) [] perm true
                (fresh (dom (fdtab w)))
                (Desc (logFileName filename j) freshFlags 0) Hw) as Htake.
  unfold locks_owned in *. cbn [files fdtab] in Htake.
  rewrite Hfd, Hfs. exact Htake.
Qed.

(** X7.  In append mode, when directory and file can be opened, the descriptor
    returned is new and on the file itself; the contents, mode and kind of
    every file that was there are kept (nothing is truncated); a file that
    was not there is made empty, with mode 0664 less the umask; and no other
    file changes. *)
Theorem initLogFile_append_keeps_contents (filename : string) (w : World) :
  allowed w (Dir filename) = true ->
  allowed w filename = true ->
  exists f w',
    initLogFile Dir filename true w = (Ok f, w')
    /\ (f ∉ dom (fdtab w))
    /\ fdtab w' = <[f := Desc filename appendFlags 0]> (fdtab w)
    /\ (forall p x, files w !! p = Some x ->
          exists x', files w' !! p = Some x'
                     /\ f_data x' = f_data x
                     /\ f_perm x' = f_perm x
                     /\ f_regular x' = f_regular x)
    /\ (files w !! filename = None ->
          files w' !! filename
          = Some (File [] (Z.land mode_0664 (Z.lnot (umask w))) (Some (Here f)) true))
    /\ (forall p, p <> filename -> files w' !! p = files w !! p).
Proof.
  intros Hd Ha. eexists _, _. split; [exact (append_run filename w Hd Ha)|].
  cbn [fdtab files].
  split; [apply is_fresh|]. split; [reflexivity|].
  unfold appended. split; [|split].
  - intros p x Hx. destruct (decide (p = filename)) as [->|Hne].
    + rewrite Hx. case_decide.
      * rewrite lookup_insert_eq. eexists. split; [reflexivity|]. repeat split.
      * exists x. repeat split. exact Hx.
    + exists x. repeat split.
      destruct (files w !! filename) as [y|]; [case_decide|];
        rewrite ?lookup_insert_ne by congruence; exact Hx.
  - intros ->. apply lookup_insert_eq.
  - intros p Hne.
    destruct (files w !! filename) as [y|]; [case_decide|];
      rewrite ?lookup_insert_ne by congruence; reflexivity.
Qed.

(** X8.  [initLogFile] never alters a file that another process holds, in
    either mode: such a file keeps its contents and its lock. *)
Theorem initLogFile_never_touches_held_files (filename : string) (append : bool)
    (w : World) (p : string) :
  locks_owned w = true ->
  held_elsewhere w p = true ->
  files (snd (initLogFile Dir filename append w)) !! p = files w !! p.
Proof.
  intros Hw Hheld.
  unfold held_elsewhere in Hheld.
  destruct (files w !! p) as [x|] eqn:Hx; [|discriminate Hheld].
  apply bool_decide_eq_true_1 in Hheld.
  destruct (initLogFile Dir filename append w) as [[f|e] w'] eqn:Hrun; cbn [snd].
  2:{ destruct (initLogFile_failure_leaves_no_mark_aux filename append w e w' Hw Hrun)
        as [-> _]. exact Hx. }
  destruct append.
  - destruct (allowed w (Dir filename)) eqn:Hd.
    2:{ rewrite (initLogFile_denied_dir filename true w Hd) in Hrun. discriminate Hrun. }
    destruct (allowed w filename) eqn:Ha.
    2:{ destruct (initLogFile_append_denied filename w Hd Ha) as (w1 & H1 & _).
        rewrite H1 in Hrun. discriminate Hrun. }
    rewrite (append_run filename w Hd Ha) in Hrun. injection Hrun as <- <-.
    cbn [files]. unfold appended.
    destruct (decide (p = filename)) as [->|Hne].
    + rewrite Hx. rewrite decide_False; [exact Hx|].
      rewrite Hheld. intros [H|H]; discriminate H.
    + destruct (files w !! filename) as [y|]; [case_decide|];
        rewrite ?lookup_insert_ne by congruence; exact Hx.
  - destruct (initLogFile_fresh_cases filename w (Ok f) w' Hw Hrun)
      as (_ & j & perm & _ & Hv & _ & ->).
    rewrite lookup_insert_ne; [exact Hx|].
    intros <-. unfold available in Hv. rewrite Hx, Hheld in Hv.
    discriminate Hv.
Qed.

(** X9.  A second call in the same process, while the descriptor of the first
    is still open, finds the base file locked by that descriptor and takes
    the next candidate; the first descriptor stays open and keeps its
    lock. *)
Theorem initLogFile_again_takes_next (filename : string) (w : World) :
  allowed w (Dir filename) = true ->
  allowed w filename = true ->
  available w filename = true ->
  allowed w (logFileName filename 1) = true ->
  available w (logFileName filename 1) = true ->
  exists f1 w1 f2 w2,
    initLogFile Dir filename false w = (Ok f1, w1)
    /\ initLogFile Dir filename false w1 = (Ok f2, w2)
    /\ f1 <> f2
    /\ fdtab w2 !! f1 = Some (Desc filename freshFlags 0)
    /\ fdtab w2 !! f2 = Some (Desc (logFileName filename 1) freshFlags 0)
    /\ (exists perm, files w2 !! filename = Some (File [] perm (Some (Here f1)) true)).
Proof.
  intros Hd Ha Hv Ha1 Hv1.
  pose proof (logFileName_1_fresh filename) as Hne.
  rewrite (initLogFile_upto filename 0 w Hd ltac:(lia) eq_refl).
  cbn [Nat.sub failed_attempts]. change (Z.of_nat 0) with 0%Z.
  match goal with
  | |- context [tryFiles filename (S ?l) 0 ?w0] =>
      destruct (round_free filename l 0 w0 Ha Hv) as [perm1 ->]
  end.
  cbn [fdtab files dirs denied umask trace].
  change (logFileName filename 0) with filename.
  set (f1 := fresh (dom (fdtab w))).
  eexists f1, _. 
  match goal with
  | |- exists f2 w2, (_, ?w1) = _ /\ _ =>
      set (W1 := w1)
  end.
  assert (Hd1 : allowed W1 (Dir filename) = true) by exact Hd.
  assert (Hbusy : Here f1 <> Here (fresh (dom (fdtab W1)))).
  { assert (Hin : f1 ∈ dom (fdtab W1))
      by (unfold W1; cbn [fdtab]; rewrite dom_insert_L; set_solver).
    intros H. assert (Heq : f1 = fresh (dom (fdtab W1))) by congruence.
    pose proof (is_fresh (dom (fdtab W1))) as Hf.
    rewrite <- Heq in Hf. exact (Hf Hin). }
  assert (Hrun2 : exists perm2 w2,
            initLogFile Dir filename false W1 = (Ok (fresh (dom (fdtab W1))), w2)
            /\ fdtab w2
               = <[fresh (dom (fdtab W1)) := Desc (logFileName filename 1) freshFlags 0]>
                   (fdtab W1)
            /\ files w2
               = <[logFileName filename 1
                     := File [] perm2 (Some (Here (fresh (dom (fdtab W1))))) true]>
                   (files W1)).
  { unfold initLogFile, bind. rewrite (MkdirAll_allowed _ _ W1 Hd1).
    change (Z.to_nat fileAttempts) with 10%nat.
    rewrite (round_busy filename 9 0 _ (File [] perm1 (Some (Here f1)) true) (Here f1));
      [ | exact Ha
        | unfold W1; cbn [files]; change (logFileName filename 0) with filename;
          apply lookup_insert_eq
        | reflexivity
        | exact Hbusy ].
    match goal with
    | |- context [tryFiles filename 9 (0 + 1) ?w0] =>
        destruct (round_free filename 8 (0 + 1) w0) as [perm2 ->]
    end.
    - exact Ha1.
    - unfold available. cbn [files]. unfold W1. cbn [files].
      change (logFileName filename (0 + 1)) with (logFileName filename 1).
      rewrite lookup_insert_ne by congruence. exact Hv1.
    - exists perm2. eexists. split; [reflexivity|]. split; reflexivity. }
  destruct Hrun2 as (perm2 & w2 & Hrun2 & Hfd2 & Hfs2).
  exists (fresh (dom (fdtab W1))), w2.
  split; [reflexivity|]. split; [exact Hrun2|].
  split; [congruence|].
  rewrite Hfd2, Hfs2. unfold W1 at 2 4 6. cbn [fdtab files].
  split; [rewrite lookup_insert_ne by congruence; apply lookup_insert_eq|].
  split; [apply lookup_insert_eq|].
  exists perm1. rewrite lookup_insert_ne by exact Hne. apply lookup_insert_eq.
Qed.

Lemma Close_owner (f : fd) (w : World) (d : desc) (x : file) :
  fdtab w !! f = Some d ->
  files w !! d_path d = Some x ->
  f_lock x = Some (Here f) ->
  Close f w
  = (None,
     mkWorld (<[d_path d := File (f_data x) (f_perm x) None (f_regular x)]> (files w))
       (dirs w) (denied w) (umask w) (delete f (fdtab w)) (trace w ++ [SysClose f])).
Proof.
  destruct w as [fs ds dn um ft tr]. unfold Close. project.
  intros -> Hx Hl. project. rewrite Hx.
  rewrite decide_True by exact Hl. reflexivity.
Qed.

End Rounds.

(** ** Initialisation with a file, and closing it *)

Section FileLogging.

Import OS Words Owned OSFacts.

Variable Dir : string -> string.

(** What [InitLoggingOptions] does once [initLogFile] has given a file. *)
Lemma InitLoggingOptions_file (o : Options) (p : Process) :
  String.eqb (o_File o) "" = false ->
  InitLoggingOptions Dir o p
  = let b1 := fresh (dom (heap p)) in
    let h1 := <[b1 := Logging.SetLevel (o_Verbosity o) "" ∅]> (heap p) in
    let i1 := mkInfo (Some b1) (modules (logInfo p)) in
    match initLogFile Dir (o_File o) (o_Append o) (world p) with
    | (Err e, w) => (Some e, mkProcess w h1 i1 (logFile p) [b1])
    | (Ok f, w) =>
        (None,
         mkProcess w
           (<[fresh (dom h1) := Logging.SetLevel (o_FileVerbosity o) "" ∅]> h1)
           i1 (Some f) [b1; fresh (dom h1)])
    end.
Proof.
  intros Hfile. unfold InitLoggingOptions.
  rewrite initialiseLogging_bind, Hfile. cbn [world].
  destruct (initLogFile Dir (o_File o) (o_Append o) (world p)) as [[f|e] w];
    reflexivity.
Qed.

(** X10.  When [InitLoggingOptions] returns an error, a file was asked for and
    [initLogFile] has failed with that error; [logFile] is as before, but the
    console backend has been installed all the same: the registry is bound
    to it, with the verbosity asked for, and it is the only backend records
    go to. *)
Theorem InitLoggingOptions_error_still_binds (o : Options) (p p1 : Process) (e : error) :
  InitLoggingOptions Dir o p = (Some e, p1) ->
  o_File o <> ""
  /\ initLogFile Dir (o_File o) (o_Append o) (world p) = (Err e, world p1)
  /\ logFile p1 = logFile p
  /\ modules (logInfo p1) = modules (logInfo p)
  /\ exists b,
       backend (logInfo p1) = Some b
       /\ (b ∉ dom (heap p))
       /\ defaultBackend p1 = [b]
       /\ table p1 = Some (Logging.SetLevel (o_Verbosity o) "" ∅).
Proof.
  intros H.
  destruct (String.eqb (o_File o) "") eqn:Hfile.
  { unfold InitLoggingOptions in H. rewrite Hfile in H. discriminate H. }
  rewrite (InitLoggingOptions_file o p Hfile) in H. cbn zeta in H.
  destruct (initLogFile Dir (o_File o) (o_Append o) (world p)) as [[f|e'] w];
    [discriminate H|].
  injection H as <- <-. cbn [world logFile logInfo modules backend defaultBackend].
  split; [intros Heq; rewrite Heq in Hfile; discriminate Hfile|].
  split; [reflexivity|]. split; [reflexivity|]. split; [reflexivity|].
  exists (fresh (dom (heap p))).
  split; [reflexivity|]. split; [apply is_fresh|]. split; [reflexivity|].
  unfold table. cbn [logInfo backend heap]. apply lookup_insert_eq.
Qed.

(** X11.  When [InitLoggingOptions] succeeds with a file, [logFile] is the
    descriptor [initLogFile] gave, and records go to two backends: the
    console backend, with the console verbosity, and a file backend with the
    file verbosity.  The registry is bound to the console backend only, so
    that [SetLevel] never changes a level of the file backend. *)
Theorem InitLoggingOptions_file_backend_out_of_reach (o : Options) (p p1 : Process) :
  o_File o <> "" ->
  InitLoggingOptions Dir o p = (None, p1) ->
  exists f b1 b2,
    initLogFile Dir (o_File o) (o_Append o) (world p) = (Ok f, world p1)
    /\ logFile p1 = Some f
    /\ defaultBackend p1 = [b1; b2]
    /\ b1 <> b2
    /\ backend (logInfo p1) = Some b1
    /\ heap p1 !! b1 = Some (Logging.SetLevel (o_Verbosity o) "" ∅)
    /\ heap p1 !! b2 = Some (Logging.SetLevel (o_FileVerbosity o) "" ∅)
    /\ forall level module,
         fst (SetLevel level module p1) = Returns tt
         /\ heap (snd (SetLevel level module p1)) !! b2 = heap p1 !! b2.
Proof.
  intros Hne H.
  assert (Hfile : String.eqb (o_File o) "" = false)
    by (apply String.eqb_neq; exact Hne).
  rewrite (InitLoggingOptions_file o p Hfile) in H. cbn zeta in H.
  destruct (initLogFile Dir (o_File o) (o_Append o) (world p)) as [[f|e'] w];
    [|discriminate H].
  injection H as <-.
  set (b1 := fresh (dom (heap p))).
  set (h1 := <[b1 := Logging.SetLevel (o_Verbosity o) "" ∅]> (heap p)).
  set (b2 := fresh (dom h1)).
  assert (Hb : b2 <> b1).
  { apply fresh_not_allocated. unfold h1. rewrite lookup_insert_eq. eauto. }
  exists f, b1, b2. cbn [world logFile logInfo backend defaultBackend heap].
  split; [reflexivity|]. split; [reflexivity|]. split; [reflexivity|].
  split; [congruence|]. split; [reflexivity|].
  assert (H1 : <[b2 := Logging.SetLevel (o_FileVerbosity o) "" ∅]> h1 !! b1
               = Some (Logging.SetLevel (o_Verbosity o) "" ∅)).
  { rewrite lookup_insert_ne by exact Hb. apply lookup_insert_eq. }
  split; [exact H1|]. split; [apply lookup_insert_eq|].
  intros level module.
  unfold SetLevel. cbn [logInfo backend heap]. rewrite H1. cbn [fst snd set_heap heap].
  split; [reflexivity|]. apply lookup_insert_ne. congruence.
Qed.

(** X12.  [CloseFileLogging] does nothing when no file was configured.  After an
    initialisation in fresh-file mode that has succeeded, it closes the
    descriptor of the log file and so gives up the lock: the descriptors are
    those from before the initialisation, and the chosen candidate, now
    empty, is available to the next taker.  [logFile] still names the closed
    descriptor. *)
Theorem CloseFileLogging_gives_up_the_file (o : Options) (p p1 : Process) :
  (logFile p = None -> CloseFileLogging p = (None, p))
  /\ (locks_owned (world p) = true ->
      o_File o <> "" ->
      o_Append o = false ->
      InitLoggingOptions Dir o p = (None, p1) ->
      exists f j perm p2,
        (0 <= j < 10)%Z
        /\ logFile p1 = Some f
        /\ fdtab (world p1) !! f = Some (Desc (logFileName (o_File o) j) freshFlags 0)
        /\ CloseFileLogging p1 = (None, p2)
        /\ logFile p2 = Some f
        /\ fdtab (world p2) = fdtab (world p)
        /\ files (world p2)
           = <[logFileName (o_File o) j := File [] perm None true]> (files (world p))
        /\ available (world p2) (logFileName (o_File o) j) = true).
Proof.
  split.
  { intros Hnone. unfold CloseFileLogging. rewrite Hnone. reflexivity. }
  intros Hw Hne Happ H.
  assert (Hfile : String.eqb (o_File o) "" = false)
    by (apply String.eqb_neq; exact Hne).
  rewrite (InitLoggingOptions_file o p Hfile) in H. cbn zeta in H.
  rewrite Happ in H.
  destruct (initLogFile Dir (o_File o) false (world p)) as [[f|e'] w] eqn:Hrun;
    [|discriminate H].
  injection H as <-.
  destruct (initLogFile_fresh_cases Dir (o_File o) (world p) (Ok f) w Hw Hrun)
    as (Hf & j & perm & Hj & _ & Hfd & Hfs).
  assert (Hlook : fdtab w !! f = Some (Desc (logFileName (o_File o) j) freshFlags 0))
    by (rewrite Hfd; apply lookup_insert_eq).
  assert (Hclose := Close_owner f w _ (File [] perm (Some (Here f)) true) Hlook).
  cbn [d_path f_data f_perm f_regular f_lock] in Hclose.
  rewrite Hfs, lookup_insert_eq in Hclose.
  specialize (Hclose eq_refl eq_refl).
  rewrite insert_insert_eq in Hclose.
  rewrite Hfd in Hclose at 1.
  rewrite delete_insert_id in Hclose
    by (subst f; apply not_elem_of_dom_1, is_fresh).
  exists f, j, perm. eexists.
  cbn [world logFile].
  split; [exact Hj|]. split; [reflexivity|]. split; [exact Hlook|].
  unfold CloseFileLogging. cbn [logFile world]. rewrite Hclose.
  split; [reflexivity|]. cbn [set_world world logFile fdtab files].
  split; [reflexivity|]. split; [reflexivity|]. split; [reflexivity|].
  unfold available. cbn [files]. rewrite lookup_insert_eq. reflexivity.
Qed.

(** X13.  [InitFileLogging] never appends.  Without a file name it is
    [InitLogging] and leaves the world alone; with one, on success, the log
    starts afresh: [logFile] is a new descriptor on one of the ten
    candidates, that file is empty and locked by the descriptor, and no other
    file has changed. *)
Theorem InitFileLogging_starts_afresh (stderrVerbosity fileVerbosity : Verbosity)
    (filename : string) (p p1 : Process) :
  InitFileLogging Dir stderrVerbosity fileVerbosity "" p
  = (None, InitLogging stderrVerbosity p)
  /\ (locks_owned (world p) = true ->
      filename <> "" ->
      InitFileLogging Dir stderrVerbosity fileVerbosity filename p = (None, p1) ->
      exists f j perm,
        (0 <= j < 10)%Z
        /\ logFile p1 = Some f
        /\ (f ∉ dom (fdtab (world p)))
        /\ fdtab (world p1)
           = <[f := Desc (logFileName filename j) freshFlags 0]> (fdtab (world p))
        /\ files (world p1)
           = <[logFileName filename j := File [] perm (Some (Here f)) true]>
               (files (world p))).
Proof.
  split; [reflexivity|].
  intros Hw Hne H.
  unfold InitFileLogging, InitStructuredLogging in H.
  assert (Hfile : String.eqb filename "" = false)
    by (apply String.eqb_neq; exact Hne).
  rewrite InitLoggingOptions_file in H by exact Hfile.
  cbn [o_File o_Append o_Verbosity o_FileVerbosity] in H. cbn zeta in H.
  destruct (initLogFile Dir filename false (world p)) as [[f|e'] w] eqn:Hrun;
    [|discriminate H].
  injection H as <-.
  destruct (initLogFile_fresh_cases Dir filename (world p) (Ok f) w Hw Hrun)
    as (Hf & j & perm & Hj & _ & Hfd & Hfs).
  exists f, j, perm. cbn [world logFile].
  split; [exact Hj|]. split; [reflexivity|].
  split; [subst f; apply is_fresh|]. split; [exact Hfd | exact Hfs].
Qed.

End FileLogging.

(** ** More on the registry *)

Section RegistryMore.

(** A new backend answers the verbosity it was made with for every
    module. *)
Lemma GetLevel_new_backend (v : Verbosity) (k : string) :
  Logging.GetLevel (Logging.SetLevel v "" ∅) k = v.
Proof.
  unfold Logging.GetLevel, Logging.SetLevel.
  destruct (decide (k = "")) as [->|Hk].
  - rewrite lookup_insert_eq. reflexivity.
  - rewrite lookup_insert_ne, lookup_empty, lookup_insert_eq by congruence.
    reflexivity.
Qed.

(** X14.  An initialisation forgets the levels set before: right after
    [InitLogging], [ModuleLevels] lists the empty module and every
    registered module, each with the verbosity just given. *)
Theorem InitLogging_resets_levels (v : Verbosity) (p : Process) :
  exists m p' snap,
    ModuleLevels (InitLogging v p) = (Returns m, p')
    /\ heap p' !! m = Some snap
    /\ dom snap = {[""]} ∪ modules (logInfo p)
    /\ forall k l, snap !! k = Some l -> l = v.
Proof.
  assert (Ht : table (InitLogging v p) = Some (Logging.SetLevel v "" ∅)).
  { unfold InitLogging. rewrite initialiseLogging_bind.
    unfold table. cbn [logInfo backend heap]. apply lookup_insert_eq. }
  eexists _, _, _. split; [exact (ModuleLevels_bound _ _ Ht)|].
  split; [apply lookup_insert_eq|].
  split; [apply snapshot_dom|].
  intros k l. rewrite snapshot_lookup. case_decide; [|discriminate].
  rewrite GetLevel_new_backend. congruence.
Qed.

(** X15.  What the next [ModuleLevels] shows after [SetLevel level module], entry
    by entry: the level itself for the module; for the empty module also on
    every listed module that has no level of its own in the backend; and
    what was shown before everywhere else.  The entries listed are the
    same. *)
Theorem SetLevel_effect_on_ModuleLevels (p : Process) (t : gmap string Level)
    (level : Level) (module : string) :
  table p = Some t ->
  exists m0 p0 before p1 m1 p2 after,
    ModuleLevels p = (Returns m0, p0)
    /\ heap p0 !! m0 = Some before
    /\ SetLevel level module p = (Returns tt, p1)
    /\ ModuleLevels p1 = (Returns m1, p2)
    /\ heap p2 !! m1 = Some after
    /\ dom after = dom before
    /\ forall k,
         k ∈ dom before ->
         after !! k
         = if decide (k = module) then Some level
           else if decide (module = "" /\ t !! k = None) then Some level
           else before !! k.
Proof.
  intros Ht. destruct (table_Some p t Ht) as (b & Hb & Hlook).
  set (t1 := <[module := level]> t).
  set (p1 := set_heap (<[b := t1]> (heap p)) p).
  assert (Ht1 : table p1 = Some t1).
  { unfold table, p1, set_heap. cbn [logInfo heap]. rewrite Hb.
    apply lookup_insert_eq. }
  eexists _, _, _, p1, _, _, _.
  split; [exact (ModuleLevels_bound p t Ht)|].
  split; [apply lookup_insert_eq|].
  split; [exact (SetLevel_bound level module p b t Hb Hlook)|].
  split; [exact (ModuleLevels_bound p1 t1 Ht1)|].
  split; [apply lookup_insert_eq|].
  change (modules (logInfo p1)) with (modules (logInfo p)).
  split; [rewrite !snapshot_dom; reflexivity|].
  intros k Hk. rewrite snapshot_dom in Hk.
  rewrite !snapshot_lookup.
  destruct (decide (k = "" \/ k ∈ modules (logInfo p))) as [_|Hn];
    [|exfalso; apply Hn; set_solver].
  unfold Logging.GetLevel, t1.
  destruct (decide (k = module)) as [->|Hkm].
  - rewrite lookup_insert_eq. reflexivity.
  - rewrite lookup_insert_ne by congruence.
    destruct (t !! k) as [l|] eqn:Hl.
    + rewrite decide_False by (intros [_ H]; discriminate H). reflexivity.
    + destruct (decide (module = "")) as [->|Hm].
      * rewrite lookup_insert_eq, decide_True by (split; reflexivity). reflexivity.
      * rewrite lookup_insert_ne by congruence.
        rewrite decide_False by tauto. reflexivity.
Qed.

(** X16.  [SetLevel] does not register: a level set for a module the registry
    does not track is not listed by [ModuleLevels], and is listed, without
    another [SetLevel], once the module is registered. *)
Theorem SetLevel_before_Register (p : Process) (t : gmap string Level)
    (level : Level) (module : string) :
  table p = Some t ->
  module ∉ modules (logInfo p) ->
  module <> "" ->
  exists p1 m1 p2 hidden m2 p3 shown,
    SetLevel level module p = (Returns tt, p1)
    /\ modules (logInfo p1) = modules (logInfo p)
    /\ ModuleLevels p1 = (Returns m1, p2)
    /\ heap p2 !! m1 = Some hidden
    /\ hidden !! module = None
    /\ ModuleLevels (Register module p1) = (Returns m2, p3)
    /\ heap p3 !! m2 = Some shown
    /\ shown !! module = Some level.
Proof.
  intros Ht Hout Hne. destruct (table_Some p t Ht) as (b & Hb & Hlook).
  set (t1 := <[module := level]> t).
  set (p1 := set_heap (<[b := t1]> (heap p)) p).
  assert (Ht1 : table p1 = Some t1).
  { unfold table, p1, set_heap. cbn [logInfo heap]. rewrite Hb.
    apply lookup_insert_eq. }
  assert (Ht2 : table (Register module p1) = Some t1) by exact Ht1.
  eexists p1, _, _, _, _, _, _.
  split; [exact (SetLevel_bound level module p b t Hb Hlook)|].
  split; [reflexivity|].
  split; [exact (ModuleLevels_bound p1 t1 Ht1)|].
  split; [apply lookup_insert_eq|].
  split.
  { rewrite snapshot_lookup. apply decide_False.
    change (modules (logInfo p1)) with (modules (logInfo p)). tauto. }
  split; [exact (ModuleLevels_bound _ t1 Ht2)|].
  split; [apply lookup_insert_eq|].
  rewrite snapshot_lookup, decide_True.
  - unfold Logging.GetLevel, t1. rewrite lookup_insert_eq. reflexivity.
  - right. cbn [Register set_logInfo logInfo modules]. set_solver.
Qed.

End RegistryMore.

(** ** More on verbosity flags *)

Section VerbosityMore.

Import Strings Strconv StringFacts.

Variable unicodeLower : string -> string.

Local Abbreviation lower := (ToLower unicodeLower).

(** X17.  The level names written by the JSON formatter are verbosity flags: every
    level has a name in [jsonLevelNames], and [UnmarshalFlag] reads that name
    back as the level, whatever the verbosity was before. *)
Theorem jsonLevelNames_parse_back (v : Verbosity) (l : Level) :
  exists name,
    jsonLevelName l = Some name
    /\ UnmarshalFlag unicodeLower v name = Parsed l [] None.
Proof. destruct l; eexists; split; reflexivity. Qed.

(** X18.  A verbosity given as a number [z] that fits [int] never fails, and
    selects go-logging's level [z + 1], cut off at critical (0) below and at
    debug (5) above: [-v 0] is error, [-v 4] and more are debug, and a
    larger number never gives a less verbose level. *)
Theorem numeric_verbosity (v : Verbosity) :
  (forall z, (minInt <= z <= maxInt)%Z ->
     p_err (UnmarshalFlag unicodeLower v (Itoa z)) = None
     /\ Level_to_Z (p_value (UnmarshalFlag unicodeLower v (Itoa z)))
        = (if (z <? 0)%Z then 0 else Z.min (z + 1) 5)%Z)
  /\ (forall z1 z2, (minInt <= z1)%Z -> (z1 <= z2)%Z -> (z2 <= maxInt)%Z ->
        (Level_to_Z (p_value (UnmarshalFlag unicodeLower v (Itoa z1)))
         <= Level_to_Z (p_value (UnmarshalFlag unicodeLower v (Itoa z2))))%Z).
Proof.
  assert (Hnum : forall z, (minInt <= z <= maxInt)%Z ->
            p_err (UnmarshalFlag unicodeLower v (Itoa z)) = None
            /\ Level_to_Z (p_value (UnmarshalFlag unicodeLower v (Itoa z)))
               = (if (z <? 0)%Z then 0 else Z.min (z + 1) 5)%Z).
  { intros z Hz.
    assert (Hout : (z < 0 \/ 4 < z)%Z ->
              UnmarshalFlag unicodeLower v (Itoa z) = fromInt v z).
    { intros Ho. apply UnmarshalFlag_number; [|exact Ho].
      rewrite (ToLower_Atoi unicodeLower _ z (Atoi_Itoa z Hz)).
      exact (Atoi_Itoa z Hz). }
    destruct (Z.ltb_spec z 0) as [Hneg|Hpos].
    - rewrite Hout by lia. unfold fromInt.
      destruct (Z.ltb_spec z 0); [split; reflexivity | lia].
    - destruct (Z.le_gt_cases z 4) as [Hle|Hgt].
      + assert (Hz5 : (z = 0 \/ z = 1 \/ z = 2 \/ z = 3 \/ z = 4)%Z) by lia.
        destruct Hz5 as [-> | [-> | [-> | [-> | ->]]]]; split; reflexivity.
      + rewrite Hout by lia. unfold fromInt.
        destruct (Z.ltb_spec z 0); [lia|].
        split; [reflexivity|]. cbn [p_value Level_to_Z]. lia. }
  split; [exact Hnum|].
  intros z1 z2 H1 H12 H2.
  destruct (Hnum z1 ltac:(lia)) as [_ ->].
  destruct (Hnum z2 ltac:(lia)) as [_ ->].
  destruct (Z.ltb_spec z1 0), (Z.ltb_spec z2 0); lia.
Qed.

(** X19.  When [UnmarshalFlag] fails, the verbosity is left as it was, nothing is
    logged, and the error quotes the input in lower case.  When it succeeds,
    what it stores does not depend on the verbosity that was there. *)
Theorem UnmarshalFlag_failure_and_receiver (v : Verbosity) (s : string) :
  (p_err (UnmarshalFlag unicodeLower v s) <> None ->
     UnmarshalFlag unicodeLower v s
     = Parsed v [] (Some (Errorf ("Invalid log level " ++ lower s))))
  /\ (p_err (UnmarshalFlag unicodeLower v s) = None ->
      forall v', UnmarshalFlag unicodeLower v' s = UnmarshalFlag unicodeLower v s).
Proof.
  unfold UnmarshalFlag.
  repeat match goal with
         | |- context [if case_of ?k ?alts then _ else _] =>
             destruct (case_of k alts);
               [split; [intros H; exfalso; apply H; reflexivity | reflexivity]|]
         end.
  destruct (Atoi (lower s)) as [i|e].
  { unfold fromInt. destruct (i <? 0)%Z;
      (split; [intros H; exfalso; apply H; reflexivity | reflexivity]). }
  destruct (String.length (lower s) =? Count (lower s) "v")%nat.
  { unfold fromInt. destruct (Z.of_nat (Count (lower s) "v") <? 0)%Z;
      (split; [intros H; exfalso; apply H; reflexivity | reflexivity]). }
  split; [reflexivity|]. intros H. discriminate H.
Qed.

End VerbosityMore.

(** ** Formatters and logger names *)

Section Formats.

(** X20.  Output to the file is never coloured, whatever the flags and whether or
    not the file is a terminal; on standard error [Colour] wins over
    [NoColour], and only without both does the terminal decide.  With
    [Structured] both outputs are JSON and the colour flags mean nothing. *)
Theorem formatters_by_flags (o : Options) (isTerminal : bool) :
  fileFormatter o isTerminal
  = (if o_Structured o then jsonFormatter else StringFormatter plainFormat)
  /\ stderrFormatter o isTerminal
     = (if o_Structured o then jsonFormatter
        else if o_Colour o || (negb (o_NoColour o) && isTerminal)
             then StringFormatter ("%{color}" ++ plainFormat ++ "%{color:reset}")
             else StringFormatter plainFormat).
Proof.
  unfold fileFormatter, stderrFormatter, logFormatter, shouldColour.
  destruct (o_Structured o), (o_Colour o), (o_NoColour o), isTerminal;
    split; reflexivity.
Qed.

Lemma Count_ReplaceAll (s : string) (old new : ascii) :
  old <> new -> Strings.Count (ReplaceAll s old new) old = 0%nat.
Proof.
  intros Hne. induction s as [|c r IH]; [reflexivity|].
  cbn [ReplaceAll Strings.Count]. rewrite IH.
  destruct (Ascii.eqb_spec c old) as [->|Hc].
  - destruct (Ascii.eqb_spec new old); [congruence | reflexivity].
  - destruct (Ascii.eqb_spec c old); [congruence | reflexivity].
Qed.

Lemma length_ReplaceAll (s : string) (old new : ascii) :
  String.length (ReplaceAll s old new) = String.length s.
Proof. induction s as [|c r IH]; cbn; [reflexivity | now rewrite IH]. Qed.

(** X21.  A logger name made by [getLoggerName] has no slash in it, whatever
    [runtime.Caller] reports and whatever [path.Dir] makes of it; and
    [MustGetLogger] registers exactly that name. *)
Theorem getLoggerName_has_no_slash (Dir : string -> string)
    (caller : option string) (p : Process) :
  Strings.Count (getLoggerName Dir caller) "/" = 0%nat
  /\ modules (logInfo (MustGetLogger Dir caller p))
     = {[getLoggerName Dir caller]} ∪ modules (logInfo p).
Proof.
  split; [|reflexivity].
  destruct caller as [file|]; [|reflexivity].
  cbn [getLoggerName]. apply Count_ReplaceAll. discriminate.
Qed.

End Formats.

(** ** Runs *)

Module MoreRuns.

Import OS Words Owned.
Local Open Scope Z_scope.

Lemma logFileName_injective_witness :
  logFileName "out/app.log" 3 <> logFileName "out/app.log" 7.
Proof.
  apply logFileName_injective; [vm_compute; split; discriminate .. | discriminate].
Defined.

Lemma initLogFile_takes_first_free_witness :
  held_from Cases.two_held "out/app.log" 0 2 = true
  /\ available Cases.two_held "out/app.log.2" = true
  /\ exists w',
       initLogFile Demo.Dir "out/app.log" false Cases.two_held = (Ok 0%nat, w')
       /\ fdtab w' !! 0%nat = Some (Desc "out/app.log.2" freshFlags 0).
Proof.
  split; [vm_compute; reflexivity|]. split; [vm_compute; reflexivity|].
  destruct (initLogFile_takes_first_free Demo.Dir "out/app.log" 2 Cases.two_held)
    as (perm & w' & calls & Hrun & Hfd & _);
    [vm_compute; reflexivity | lia | vm_compute; reflexivity ..|].
  exists w'. split; [exact Hrun|]. rewrite Hfd. apply lookup_insert_eq.
Defined.

Lemma initLogFile_stops_at_open_error_witness :
  held_from Cases.second_denied "out/app.log" 0 1 = true
  /\ allowed Cases.second_denied "out/app.log.1" = false
  /\ exists w' calls,
       initLogFile Demo.Dir "out/app.log" false Cases.second_denied
       = (Err (Errno EACCES), w')
       /\ files w' = files Cases.second_denied
       /\ opened calls = ["out/app.log"; "out/app.log.1"].
Proof.
  split; [vm_compute; reflexivity|]. split; [vm_compute; reflexivity|].
  destruct (initLogFile_stops_at_open_error Demo.Dir "out/app.log" 1 Cases.second_denied)
    as (w' & calls & Hrun & Hfs & _ & _ & Hopened);
    [vm_compute; reflexivity | lia | vm_compute; reflexivity ..|].
  exists w', calls. split; [exact Hrun|]. split; [exact Hfs | exact Hopened].
Defined.

Lemma initLogFile_stops_at_truncate_error_witness :
  special Cases.fifo_base "out/app.log" = true
  /\ exists w',
       initLogFile Demo.Dir "out/app.log" false Cases.fifo_base
       = (Err (Errno EINVAL), w')
       /\ files w' = files Cases.fifo_base
       /\ fdtab w' = fdtab Cases.fifo_base.
Proof.
  split; [vm_compute; reflexivity|].
  destruct (initLogFile_stops_at_truncate_error Demo.Dir "out/app.log" 0 Cases.fifo_base)
    as (w' & calls & Hrun & Hfs & Hfd & _);
    [vm_compute; reflexivity | lia | vm_compute; reflexivity ..|].
  exists w'. split; [exact Hrun|]. split; [exact Hfs | exact Hfd].
Defined.

Lemma initLogFile_failure_leaves_no_mark_witness :
  let run := initLogFile Demo.Dir "out/app.log" false Demo.all_held in
  locks_owned Demo.all_held = true
  /\ run = (Err (exhausted), snd run)
  /\ files (snd run) = files Demo.all_held
  /\ fdtab (snd run) = fdtab Demo.all_held.
Proof.
  intros run.
  assert (Hw : locks_owned Demo.all_held = true) by (vm_compute; reflexivity).
  assert (Hrun : run = (Err exhausted, snd run)) by (vm_compute; reflexivity).
  split; [exact Hw|]. split; [exact Hrun|].
  exact (initLogFile_failure_leaves_no_mark Demo.Dir "out/app.log" false
           Demo.all_held exhausted (snd run) Hw Hrun).
Defined.

Lemma initLogFile_fresh_success_witness :
  let run := initLogFile Demo.Dir "out/app.log" false Demo.one_held in
  locks_owned Demo.one_held = true
  /\ run = (Ok 0%nat, snd run)
  /\ locks_owned (snd run) = true.
Proof.
  intros run.
  assert (Hw : locks_owned Demo.one_held = true) by (vm_compute; reflexivity).
  assert (Hrun : run = (Ok 0%nat, snd run)) by (vm_compute; reflexivity).
  split; [exact Hw|]. split; [exact Hrun|].
  destruct (initLogFile_fresh_success Demo.Dir "out/app.log" Demo.one_held
              0%nat (snd run) Hw Hrun)
    as (_ & j & perm & _ & _ & _ & _ & Hkeep).
  exact Hkeep.
Defined.

Lemma initLogFile_append_keeps_contents_witness :
  allowed Demo.one_held "out/app.log.1" = true
  /\ exists f w' x',
       initLogFile Demo.Dir "out/app.log.1" true Demo.one_held = (Ok f, w')
       /\ files w' !! "out/app.log.1" = Some x'
       /\ f_data x' = list_ascii_of_string "stale".
Proof.
  split; [vm_compute; reflexivity|].
  destruct (initLogFile_append_keeps_contents Demo.Dir "out/app.log.1" Demo.one_held)
    as (f & w' & Hrun & _ & _ & Hkeep & _);
    [vm_compute; reflexivity ..|].
  destruct (Hkeep "out/app.log.1" (Demo.free "stale")) as (x' & Hx' & Hdata & _);
    [vm_compute; reflexivity|].
  exists f, w', x'. split; [exact Hrun|]. split; [exact Hx' | exact Hdata].
Defined.

Lemma initLogFile_never_touches_held_files_witness :
  locks_owned Demo.one_held = true
  /\ held_elsewhere Demo.one_held "out/app.log" = true
  /\ files (snd (initLogFile Demo.Dir "out/app.log" false Demo.one_held)) !! "out/app.log"
     = files Demo.one_held !! "out/app.log"
  /\ files (snd (initLogFile Demo.Dir "out/app.log" true Demo.one_held)) !! "out/app.log"
     = files Demo.one_held !! "out/app.log".
Proof.
  assert (Hw : locks_owned Demo.one_held = true) by (vm_compute; reflexivity).
  assert (Hh : held_elsewhere Demo.one_held "out/app.log" = true) by reflexivity.
  split; [exact Hw|]. split; [exact Hh|]. split.
  - exact (initLogFile_never_touches_held_files Demo.Dir "out/app.log" false
             Demo.one_held "out/app.log" Hw Hh).
  - exact (initLogFile_never_touches_held_files Demo.Dir "out/app.log" true
             Demo.one_held "out/app.log" Hw Hh).
Defined.

Lemma initLogFile_again_takes_next_witness :
  exists w1 w2,
    initLogFile Demo.Dir "out/app.log" false (Demo.world_of []) = (Ok 0%nat, w1)
    /\ initLogFile Demo.Dir "out/app.log" false w1 = (Ok 1%nat, w2)
    /\ fdtab w2 !! 1%nat = Some (Desc "out/app.log.1" freshFlags 0).
Proof.
  destruct (initLogFile_again_takes_next Demo.Dir "out/app.log" (Demo.world_of []))
    as (f1 & w1 & f2 & w2 & H1 & H2 & _ & _ & Hfd & _);
    [vm_compute; reflexivity ..|].
  assert (Hf1 : f1 = 0%nat).
  { assert (E : fst (initLogFile Demo.Dir "out/app.log" false (Demo.world_of []))
                = Ok 0%nat) by (vm_compute; reflexivity).
    rewrite H1 in E. injection E as E. exact E. }
  subst f1.
  assert (Hw1 : w1 = snd (initLogFile Demo.Dir "out/app.log" false (Demo.world_of [])))
    by (rewrite H1; reflexivity).
  assert (Hf2 : f2 = 1%nat).
  { assert (E : fst (initLogFile Demo.Dir "out/app.log" false
                       (snd (initLogFile Demo.Dir "out/app.log" false (Demo.world_of []))))
                = Ok 1%nat) by (vm_compute; reflexivity).
    rewrite <- Hw1, H2 in E. injection E as E. exact E. }
  subst f2.
  exists w1, w2. split; [exact H1|]. split; [exact H2 | exact Hfd].
Defined.

Lemma InitLoggingOptions_error_still_binds_witness :
  let run := InitLoggingOptions Demo.Dir Cases.to_file (start Demo.all_held) in
  run = (Some exhausted, snd run)
  /\ logFile (snd run) = None
  /\ exists b, backend (logInfo (snd run)) = Some b /\ defaultBackend (snd run) = [b].
Proof.
  intros run.
  assert (Hrun : run = (Some exhausted, snd run)) by (vm_compute; reflexivity).
  split; [exact Hrun|].
  destruct (InitLoggingOptions_error_still_binds Demo.Dir Cases.to_file
              (start Demo.all_held) (snd run) exhausted Hrun)
    as (_ & _ & Hlf & _ & b & Hb & _ & Hdb & _).
  split; [exact Hlf|]. exists b. split; [exact Hb | exact Hdb].
Defined.

Lemma InitLoggingOptions_file_backend_out_of_reach_witness :
  let run := InitLoggingOptions Demo.Dir Cases.to_file (start Demo.one_held) in
  run = (None, snd run)
  /\ exists f b1 b2,
       logFile (snd run) = Some f
       /\ defaultBackend (snd run) = [b1; b2]
       /\ heap (snd (SetLevel ERROR "" (snd run))) !! b2 = heap (snd run) !! b2.
Proof.
  intros run.
  assert (Hrun : run = (None, snd run)) by (vm_compute; reflexivity).
  split; [exact Hrun|].
  destruct (InitLoggingOptions_file_backend_out_of_reach Demo.Dir Cases.to_file
              (start Demo.one_held) (snd run))
    as (f & b1 & b2 & _ & Hlf & Hdb & _ & _ & _ & _ & Hset);
    [discriminate | exact Hrun |].
  exists f, b1, b2. split; [exact Hlf|]. split; [exact Hdb|].
  exact (proj2 (Hset ERROR "")).
Defined.

Lemma CloseFileLogging_gives_up_the_file_witness :
  let run := InitLoggingOptions Demo.Dir Cases.to_file (start Demo.one_held) in
  locks_owned (world (start Demo.one_held)) = true
  /\ run = (None, snd run)
  /\ exists p2,
       CloseFileLogging (snd run) = (None, p2)
       /\ fdtab (world p2) = fdtab (world (start Demo.one_held)).
Proof.
  intros run.
  assert (Hw : locks_owned (world (start Demo.one_held)) = true)
    by (vm_compute; reflexivity).
  assert (Hrun : run = (None, snd run)) by (vm_compute; reflexivity).
  split; [exact Hw|]. split; [exact Hrun|].
  destruct (CloseFileLogging_gives_up_the_file Demo.Dir Cases.to_file
              (start Demo.one_held) (snd run)) as [_ H].
  destruct (H Hw ltac:(discriminate) eq_refl Hrun)
    as (f & j & perm & p2 & _ & _ & _ & Hclose & _ & Hfd & _).
  exists p2. split; [exact Hclose | exact Hfd].
Defined.

Lemma InitLogging_resets_levels_witness :
  exists m p' snap,
    ModuleLevels (InitLogging DEBUG Cases.two_modules) = (Returns m, p')
    /\ heap p' !! m = Some snap
    /\ (forall l, snap !! "net" = Some l -> l = DEBUG).
Proof.
  destruct (InitLogging_resets_levels DEBUG Cases.two_modules)
    as (m & p' & snap & Hrun & Hsnap & _ & Hall).
  exists m, p', snap. split; [exact Hrun|]. split; [exact Hsnap|].
  exact (Hall "net").
Defined.

Lemma SetLevel_effect_on_ModuleLevels_witness :
  exists t p1,
    table Cases.two_modules = Some t
    /\ SetLevel DEBUG "" Cases.two_modules = (Returns tt, p1).
Proof.
  destruct (table Cases.two_modules) as [t|] eqn:Ht;
    [|vm_compute in Ht; discriminate Ht].
  destruct (SetLevel_effect_on_ModuleLevels Cases.two_modules t DEBUG "" Ht)
    as (_ & _ & _ & p1 & _ & _ & _ & _ & _ & Hset & _).
  exists t, p1. split; [reflexivity | exact Hset].
Defined.

Lemma SetLevel_before_Register_witness :
  table (InitLogging WARNING (start (Demo.world_of []))) = Some {[ "" := WARNING ]}
  /\ exists p1 m2 p3 shown,
       SetLevel DEBUG "net" (InitLogging WARNING (start (Demo.world_of [])))
       = (Returns tt, p1)
       /\ ModuleLevels (Register "net" p1) = (Returns m2, p3)
       /\ heap p3 !! m2 = Some shown
       /\ shown !! "net" = Some DEBUG.
Proof.
  assert (Ht : table (InitLogging WARNING (start (Demo.world_of [])))
               = Some {[ "" := WARNING ]}) by reflexivity.
  split; [exact Ht|].
  destruct (SetLevel_before_Register (InitLogging WARNING (start (Demo.world_of [])))
              _ DEBUG "net" Ht)
    as (p1 & _ & _ & _ & m2 & p3 & shown & Hset & _ & _ & _ & _ & Hml & Hlook & Hshown);
    [apply not_elem_of_empty | discriminate |].
  exists p1, m2, p3, shown. repeat split; assumption.
Defined.

Lemma numeric_verbosity_witness :
  p_err (UnmarshalFlag id WARNING (Strconv.Itoa 2)) = None
  /\ Level_to_Z (p_value (UnmarshalFlag id WARNING (Strconv.Itoa 2))) = 3
  /\ Level_to_Z (p_value (UnmarshalFlag id WARNING (Strconv.Itoa (-5))))
     <= Level_to_Z (p_value (UnmarshalFlag id WARNING (Strconv.Itoa 77))).
Proof.
  destruct (numeric_verbosity id WARNING) as [Hnum Hmono].
  destruct (Hnum 2) as [He Hl]; [vm_compute; split; discriminate|].
  split; [exact He|]. split; [exact Hl|].
  apply Hmono; vm_compute; discriminate.
Defined.

Lemma UnmarshalFlag_failure_and_receiver_witness :
  UnmarshalFlag id WARNING "LOUD"
  = Parsed WARNING [] (Some (Errorf "Invalid log level loud"))
  /\ UnmarshalFlag id DEBUG "warn" = UnmarshalFlag id WARNING "warn".
Proof.
  split.
  - apply (proj1 (UnmarshalFlag_failure_and_receiver id WARNING "LOUD")).
    vm_compute. intros H. discriminate H.
  - apply (proj2 (UnmarshalFlag_failure_and_receiver id WARNING "warn")).
    reflexivity.
Defined.

Lemma InitFileLogging_starts_afresh_witness :
  let run := InitFileLogging Demo.Dir WARNING DEBUG "out/app.log" (start Demo.one_held) in
  locks_owned (world (start Demo.one_held)) = true
  /\ run = (None, snd run)
  /\ exists f j perm,
       logFile (snd run) = Some f
       /\ files (world (snd run))
          = <[logFileName "out/app.log" j := File [] perm (Some (Here f)) true]>
              (files (world (start Demo.one_held))).
Proof.
  intros run.
  assert (Hw : locks_owned (world (start Demo.one_held)) = true)
    by (vm_compute; reflexivity).
  assert (Hrun : run = (None, snd run)) by (vm_compute; reflexivity).
  split; [exact Hw|]. split; [exact Hrun|].
  destruct (InitFileLogging_starts_afresh Demo.Dir WARNING DEBUG "out/app.log"
              (start Demo.one_held) (snd run)) as [_ H].
  destruct (H Hw ltac:(discriminate) Hrun) as (f & j & perm & _ & Hlf & _ & _ & Hfs).
  exists f, j, perm. split; [exact Hlf | exact Hfs].
Defined.

End MoreRuns.
